(** * Transparent access/refresh token renewal: a model of [lib/auth.ts]

    The development embeds the server-side helpers of [lib/auth.ts]
    ([extractAndSetCookies], [getAuthToken], [getRefreshToken],
    [getAuthHeaders], [requireAuth], [clearAuthCookies], [fetchWithAuth])
    and the [logout] server action, and proves the behaviour of the
    request / renew / retry protocol.

    Modelling choices.
    - The cookie store obtained from [cookies()] is a finite map from cookie
      names to cookies ([gmap string Cookie]): [get] is lookup, [set] is
      insert (overwriting), and [delete] overwrites the entry with an empty
      value that expired at the epoch ([deleted_cookie]); the name stays in
      the store.
    - JavaScript strings are [string]; [undefined] is [None].  The code
      tests its tokens for truthiness, so a cookie with an empty value
      counts as no credential ([truthy]).
    - The headers a caller passes in [options.headers] are a plain record;
      of the other [RequestInit] fields the method and the body are kept.
    - An [async] function is a computation over an explicit world (cookie
      store, remote service, requests issued so far, console) that either
      returns a value or throws.
    - The remote service is an arbitrary deterministic transition function
      [srv]: it receives each request and answers with a response or with a
      network fault ([fetch] rejects).  All results hold for every such
      service.  One call of an action runs alone on its world. *)

From Stdlib Require Import ZArith Ascii String.
From stdpp Require Import base option list strings gmap fin_maps.

Local Open Scope string_scope.
Local Open Scope Z_scope.

(** ** Strings and the two patterns of [extractAndSetCookies] *)

(** The longest prefix without [';']: what the group [([^;]+)] captures
    (as long as it is not empty). *)
Fixpoint take_value (s : string) : string :=
  match s with
  | EmptyString => EmptyString
  | String c r => if Ascii.eqb c ";"%char then EmptyString else String c (take_value r)
  end.

(** [strip_prefix p s] is the rest of [s] after the literal [p], if [s]
    starts with [p]. *)
Fixpoint strip_prefix (p s : string) : option string :=
  match p with
  | EmptyString => Some s
  | String a p' =>
      match s with
      | EmptyString => None
      | String b s' => if Ascii.eqb a b then strip_prefix p' s' else None
      end
  end.

(** The pattern [lit([^;]+)] tried at the start of [s]. *)
Definition match_here (lit s : string) : option string :=
  match strip_prefix lit s with
  | Some rest =>
      match take_value rest with
      | EmptyString => None
      | String c v => Some (String c v)
      end
  | None => None
  end.

(** [s.match(/lit([^;]+)/)]: the leftmost position where the pattern
    matches; the result is capture group 1. *)
Fixpoint match_from (lit s : string) : option string :=
  match match_here lit s with
  | Some v => Some v
  | None =>
      match s with
      | EmptyString => None
      | String _ r => match_from lit r
      end
  end.

(** [setCookieHeader.match(/access_token=([^;]+)/)], group 1. *)
Definition accessTokenMatch (setCookieHeader : string) : option string :=
  match_from "access_token=" setCookieHeader.

(** [setCookieHeader.match(/refresh_token=([^;]+)/)], group 1. *)
Definition refreshTokenMatch (setCookieHeader : string) : option string :=
  match_from "refresh_token=" setCookieHeader.

(** JavaScript truthiness of a [string | undefined]: [undefined] and the
    empty string are falsy. *)
Definition truthy (v : option string) : bool :=
  match v with
  | Some (String _ _) => true
  | _ => false
  end.

(** A template literal prints [undefined] for a missing value. *)
Definition template (v : option string) : string :=
  match v with
  | Some s => s
  | None => "undefined"
  end.

(** ** Cookies *)

Record CookieOptions := mkCookieOptions {
  httpOnly : bool;
  secure : bool;
  sameSite : string;
  path : string;
  maxAge : Z
}.

(** A stored cookie: its value, the options it was set with (a cookie that
    came with the incoming request has none), and the [expires] date it was
    written with, in milliseconds since the epoch.  Only the store's
    [delete] writes a date, [new Date(0)]; the expiry a store derives from
    [maxAge] is not part of the model. *)
Record Cookie := makeCookie {
  cookie_value : string;
  cookie_options : option CookieOptions;
  cookie_expires : option Z
}.

(** A cookie written with a value and, possibly, options. *)
Definition mkCookie (value : string) (o : option CookieOptions) : Cookie :=
  {| cookie_value := value; cookie_options := o; cookie_expires := None |}.

(** What [cookieStore.delete(name)] leaves under the name: the store does
    not drop the entry, it overwrites it with an empty value that expired
    at the epoch. *)
Definition deleted_cookie : Cookie :=
  {| cookie_value := ""; cookie_options := None; cookie_expires := Some 0 |}.

Record Env := mkEnv {
  NODE_ENV : option string;
  NEXT_PUBLIC_API_URL : option string
}.

(** [process.env.NODE_ENV === 'production'] *)
Definition is_production (env : Env) : bool :=
  match NODE_ENV env with
  | Some s => String.eqb s "production"
  | None => false
  end.

Definition access_options (env : Env) : CookieOptions :=
  {| httpOnly := true; secure := is_production env; sameSite := "lax";
     path := "/"; maxAge := 15 * 60 |}.

Definition refresh_options (env : Env) : CookieOptions :=
  {| httpOnly := true; secure := is_production env; sameSite := "lax";
     path := "/"; maxAge := 10080 * 60 |}.

(** ** Requests, responses, thrown values *)

Record RequestInit := mkRequestInit {
  method : option string;
  body : option string;
  headers : option (gmap string string)
}.

Record FetchWithAuthOptions := mkOptions {
  skipRefresh : option bool;
  fetchOptions : RequestInit
}.

(** What [fetch(url, init)] sends. *)
Record Request := mkRequest {
  req_url : string;
  req_method : option string;
  req_body : option string;
  req_headers : gmap string string
}.

Record Response := mkResponse {
  status : Z;
  statusText : string;
  setCookie : list string;   (* headers.getSetCookie() *)
  resp_body : string
}.

(** [response.ok] *)
Definition ok (r : Response) : bool :=
  (200 <=? status r) && (status r <=? 299).

(** A thrown value: [new Error(message)] of the program itself, or the
    [TypeError] with which [fetch] rejects on a network fault. *)
Inductive JsExn :=
  | NewError (message : string)
  | FetchFault (message : string).

Inductive FetchResult :=
  | Delivered (r : Response)
  | Faulted (message : string).

Inductive Completion (A : Type) :=
  | Returned (a : A)
  | Thrown (e : JsExn).
Arguments Returned {A} a.
Arguments Thrown {A} e.

Definition session_expired : JsExn :=
  NewError "Session expired. Please login again.".

Definition no_refresh_credential : JsExn :=
  NewError "Unauthorized: No refresh token available".

Definition unauthenticated : JsExn :=
  NewError "No authentication token found".

(** ** The world of a server action, and actions on it *)

Section Protocol.

Context {NetState : Type}.

(** The remote service: one round trip takes the service from one state to
    the next and yields a response or a network fault. *)
Variable srv : NetState -> Request -> NetState * FetchResult.

(** [process.env] *)
Variable env : Env.

Record World := mkWorld {
  jar : gmap string Cookie;             (* the store behind [cookies()] *)
  net : NetState;                       (* the remote service *)
  wire : list Request;                  (* requests issued, oldest first *)
  console : list (string * JsExn)       (* [console.error] lines *)
}.

Definition Action (A : Type) : Type := World -> Completion A * World.

Definition ret {A} (a : A) : Action A := fun w => (Returned a, w).

Definition throw {A} (e : JsExn) : Action A := fun w => (Thrown e, w).

Definition bind {A B} (m : Action A) (k : A -> Action B) : Action B :=
  fun w =>
    match m w with
    | (Returned a, w') => k a w'
    | (Thrown e, w') => (Thrown e, w')
    end.

(** [try { m } catch (error) { h error }] *)
Definition try_catch {A} (m : Action A) (h : JsExn -> Action A) : Action A :=
  fun w =>
    match m w with
    | (Returned a, w') => (Returned a, w')
    | (Thrown e, w') => h e w'
    end.

Notation "x <- m ;; k" := (bind m (fun x => k))
  (at level 100, m at next level, right associativity).
Notation "m ;;; k" := (bind m (fun _ => k))
  (at level 100, right associativity).

(** [for (const x of l) { f x }] *)
Fixpoint for_of {A} (l : list A) (f : A -> Action unit) : Action unit :=
  match l with
  | [] => ret tt
  | x :: r => f x ;;; for_of r f
  end.

(** *** The cookie store *)

Definition with_jar (j : gmap string Cookie) (w : World) : World :=
  {| jar := j; net := net w; wire := wire w; console := console w |}.

(** [cookieStore.get(name)] *)
Definition cookies_get (name : string) : Action (option Cookie) :=
  fun w => (Returned (jar w !! name), w).

(** [cookieStore.set(name, value, options)] *)
Definition cookies_set (name value : string) (o : CookieOptions) : Action unit :=
  fun w => (Returned tt, with_jar (<[name := mkCookie value (Some o)]> (jar w)) w).

(** [cookieStore.delete(name)]: the entry stays (it is created when it was
    missing) and becomes [deleted_cookie], so that [get] and [has] still
    find the name. *)
Definition cookies_delete (name : string) : Action unit :=
  fun w => (Returned tt, with_jar (<[name := deleted_cookie]> (jar w)) w).

(** *** The network and the console *)

(** [await fetch(url, init)]: the request goes out (and is recorded), the
    service moves on, and the call yields the response or rejects. *)
Definition fetch (req : Request) : Action Response :=
  fun w =>
    let '(n', res) := srv (net w) req in
    let w' := {| jar := jar w; net := n'; wire := wire w ++ [req];
                 console := console w |} in
    match res with
    | Delivered r => (Returned r, w')
    | Faulted msg => (Thrown (FetchFault msg), w')
    end.

(** [console.error(label, error)] *)
Definition console_error (label : string) (e : JsExn) : Action unit :=
  fun w => (Returned tt,
            {| jar := jar w; net := net w; wire := wire w;
               console := console w ++ [(label, e)] |}).

(** ** [lib/auth.ts] *)

Definition extractAndSetCookies (setCookieHeaders : list string) : Action unit :=
  for_of setCookieHeaders (fun setCookieHeader =>
    match accessTokenMatch setCookieHeader with
    | Some v => cookies_set "access_token" v (access_options env)
    | None => ret tt
    end ;;;
    match refreshTokenMatch setCookieHeader with
    | Some v => cookies_set "refresh_token" v (refresh_options env)
    | None => ret tt
    end).

Definition getAuthToken : Action (option string) :=
  c <- cookies_get "access_token" ;; ret (cookie_value <$> c).

Definition getRefreshToken : Action (option string) :=
  c <- cookies_get "refresh_token" ;; ret (cookie_value <$> c).

(** [if (token) cookieHeader.push(`name=${token}`)] *)
Definition push_if (token : option string) (name : string)
    (cookieHeader : list string) : list string :=
  if truthy token then cookieHeader ++ [name +:+ "=" +:+ template token]
  else cookieHeader.

(** The object literal returned by [getAuthHeaders]. *)
Definition auth_headers_of (cookieHeader : list string) : gmap string string :=
  if (0 <? Z.of_nat (length cookieHeader))
  then <["Cookie" := String.concat "; " cookieHeader]>
         {["Content-Type" := "application/json"]}
  else {["Content-Type" := "application/json"]}.

Definition getAuthHeaders : Action (gmap string string) :=
  accessToken <- getAuthToken ;;
  refreshToken <- getRefreshToken ;;
  let cookieHeader :=
    push_if refreshToken "refresh_token" (push_if accessToken "access_token" []) in
  ret (auth_headers_of cookieHeader).

Definition requireAuth : Action string :=
  token <- getAuthToken ;;
  if negb (truthy token) then throw unauthenticated
  else ret (template token).

Definition clearAuthCookies : Action unit :=
  cookies_delete "access_token" ;;;
  cookies_delete "refresh_token".

(** [{ ...base, ...extra }] on header records: the later spread wins. *)
Definition spread_headers (base : gmap string string)
    (extra : option (gmap string string)) : gmap string string :=
  default ∅ extra ∪ base.

(** [fetch(url, { ...fetchOptions, headers: { ...h, ...fetchOptions.headers } })] *)
Definition original_request (url : string) (fo : RequestInit)
    (h : gmap string string) : Request :=
  {| req_url := url; req_method := method fo; req_body := body fo;
     req_headers := spread_headers h (headers fo) |}.

(** The call to the refresh endpoint (lines 158-167). *)
Definition refresh_request (refreshToken : option string) : Request :=
  {| req_url := template (NEXT_PUBLIC_API_URL env) +:+ "/api/auth/refresh";
     req_method := Some "POST";
     req_body := None;
     req_headers :=
       <["Cookie" := "refresh_token=" +:+ template refreshToken]>
         {["Content-Type" := "application/json"]} |}.

(** [!skipRefresh] for a [boolean | undefined]. *)
Definition refresh_enabled (options : FetchWithAuthOptions) : bool :=
  match skipRefresh options with
  | Some true => false
  | _ => true
  end.

Definition fetchWithAuth (url : string) (options : FetchWithAuthOptions)
    : Action Response :=
  let fo := fetchOptions options in
  hdrs <- getAuthHeaders ;;
  response <- fetch (original_request url fo hdrs) ;;
  if (status response =? 401) && refresh_enabled options then
    refreshToken <- getRefreshToken ;;
    if negb (truthy refreshToken) then throw no_refresh_credential
    else
      try_catch
        (refreshResponse <- fetch (refresh_request refreshToken) ;;
         (if negb (ok refreshResponse)
          then clearAuthCookies ;;; throw session_expired
          else ret tt) ;;;
         let setCookieHeaders := setCookie refreshResponse in
         (if 0 <? Z.of_nat (length setCookieHeaders)
          then extractAndSetCookies setCookieHeaders
          else ret tt) ;;;
         newHeaders <- getAuthHeaders ;;
         retryResponse <- fetch (original_request url fo newHeaders) ;;
         ret retryResponse)
        (fun error => clearAuthCookies ;;; throw error)
  else ret response.

(** ** The [logout] server action *)

Definition logout_request (refreshToken : option string) : Request :=
  {| req_url := template (NEXT_PUBLIC_API_URL env) +:+ "/api/auth/logout";
     req_method := Some "POST";
     req_body := None;
     req_headers :=
       <["Cookie" := "refresh_token=" +:+ template refreshToken]>
         {["Content-Type" := "application/json"]} |}.

Definition logout : Action unit :=
  refreshToken <- getRefreshToken ;;
  (if truthy refreshToken
   then try_catch
          (fetch (logout_request refreshToken) ;;; ret tt)
          (fun error => console_error "Logout request failed:" error)
   else ret tt) ;;;
  clearAuthCookies.

End Protocol.

(** ** Reading an action, and the store operations as functions on the jar

    These are the vocabulary of the statements below; each is tied to the
    action it describes by a lemma ([extractAndSetCookies_run],
    [getAuthHeaders_run], [clearAuthCookies_run], ...). *)

Definition result_of {NetState A}
    (out : Completion A * @World NetState) : Completion A := fst out.

Definition world_after {NetState A}
    (out : Completion A * @World NetState) : @World NetState := snd out.

(** The value of the named cookie, as [cookieStore.get(name)?.value]. *)
Definition token (name : string) (j : gmap string Cookie) : option string :=
  cookie_value <$> j !! name.

(** One iteration of the loop of [extractAndSetCookies]. *)
Definition store_directive (env : Env) (j : gmap string Cookie)
    (setCookieHeader : string) : gmap string Cookie :=
  let j1 :=
    match accessTokenMatch setCookieHeader with
    | Some v => <["access_token" := mkCookie v (Some (access_options env))]> j
    | None => j
    end in
  match refreshTokenMatch setCookieHeader with
  | Some v => <["refresh_token" := mkCookie v (Some (refresh_options env))]> j1
  | None => j1
  end.

(** The jar after [extractAndSetCookies]. *)
Definition ingest (env : Env) (setCookieHeaders : list string)
    (j : gmap string Cookie) : gmap string Cookie :=
  fold_left (store_directive env) setCookieHeaders j.

(** The headers [getAuthHeaders] builds from a jar. *)
Definition authHeaders (j : gmap string Cookie) : gmap string string :=
  auth_headers_of
    (push_if (token "refresh_token" j) "refresh_token"
       (push_if (token "access_token" j) "access_token" [])).

(** The jar after [clearAuthCookies]. *)
Definition cleared (j : gmap string Cookie) : gmap string Cookie :=
  <["refresh_token" := deleted_cookie]> (<["access_token" := deleted_cookie]> j).

(** The value the last matching directive of a sequence assigns, if any
    directive matches. *)
Definition last_match (pat : string -> option string)
    (setCookieHeaders : list string) : option string :=
  fold_left (fun acc h => match pat h with Some v => Some v | None => acc end)
    setCookieHeaders None.



(** The [Cookie] entry naming the credentials that are present (non-empty),
    access first. *)
Definition cookie_entry (access refresh : option string) : option string :=
  match truthy access, truthy refresh with
  | true, true =>
      Some ("access_token=" +:+ template access +:+ "; " +:+
            "refresh_token=" +:+ template refresh)
  | true, false => Some ("access_token=" +:+ template access)
  | false, true => Some ("refresh_token=" +:+ template refresh)
  | false, false => None
  end.

(** A renewal round trip that did not succeed: a response with a
    non-success status, or a network fault. *)
Definition renewal_failed (res : FetchResult) : Prop :=
  match res with
  | Delivered r2 => ok r2 = false
  | Faulted _ => True
  end.

(** ** Concrete services and stores *)

(** A service that answers from a script, one entry per round trip, and is
    unreachable once the script is used up. *)
Definition scripted (script : list FetchResult) (_ : Request)
    : list FetchResult * FetchResult :=
  match script with
  | [] => ([], Faulted "fetch failed")
  | r :: rest => (rest, r)
  end.

Definition dev_env : Env :=
  {| NODE_ENV := Some "development";
     NEXT_PUBLIC_API_URL := Some "http://localhost:3001" |}.

Definition stats_url : string := "http://localhost:3001/api/user/stats".

Definition get_options : FetchWithAuthOptions :=
  {| skipRefresh := None;
     fetchOptions := {| method := Some "GET"; body := None; headers := None |} |}.

Definition get_options_skip : FetchWithAuthOptions :=
  {| skipRefresh := Some true;
     fetchOptions := {| method := Some "GET"; body := None; headers := None |} |}.

Definition resp_401 : Response :=
  {| status := 401; statusText := "Unauthorized"; setCookie := [];
     resp_body := "" |}.

Definition resp_500 : Response :=
  {| status := 500; statusText := "Internal Server Error"; setCookie := [];
     resp_body := "" |}.

Definition resp_stats : Response :=
  {| status := 200; statusText := "OK"; setCookie := [];
     resp_body := "{}" |}.

Definition access_CCC : string := "access_token=CCC; Path=/; HttpOnly".
Definition refresh_DDD : string := "refresh_token=DDD; Path=/; HttpOnly".

Definition resp_renewed : Response :=
  {| status := 200; statusText := "OK";
     setCookie := [access_CCC; refresh_DDD]; resp_body := "" |}.


(** Access=AAA, Refresh=BBB, as they arrive with a request. *)
Definition jar_AAA_BBB : gmap string Cookie :=
  <["access_token" := mkCookie "AAA" None]>
    (<["refresh_token" := mkCookie "BBB" None]> ∅).

(** Access=AAA, no refresh credential. *)
Definition jar_AAA : gmap string Cookie :=
  <["access_token" := mkCookie "AAA" None]> ∅.

Definition world_of (j : gmap string Cookie) (script : list FetchResult)
    : @World (list FetchResult) :=
  {| jar := j; net := script; wire := []; console := [] |}.

(** ** The server actions built on [lib/auth.ts]

    The actions decode response bodies with [response.json()] and build
    their error from the decoded value.  Decoding is kept abstract: a
    [Body] gives, for every response, what [await response.json()] yields
    (a decoded value or a rejection), the value of the literal [{}], and
    the error thrown by
    [throw new Error(errorData.error?.message || fallback)] for a decoded
    [errorData] and the fallback text.  [stringify] is
    [JSON.stringify({ email, password })]. *)

Record Body (J : Type) := mkBody {
  json : Response -> Completion J;
  empty_object : J;
  error_from : J -> string -> JsExn;
  stringify : string -> string -> string
}.
Arguments json {J} _ _.
Arguments empty_object {J} _.
Arguments error_from {J} _ _ _.
Arguments stringify {J} _ _ _.

(** [true] when the string holds no [';']. *)
Fixpoint no_semicolon (s : string) : bool :=
  match s with
  | EmptyString => true
  | String c r => negb (Ascii.eqb c ";"%char) && no_semicolon r
  end.

Section ServerActions.

Context {NetState J : Type}.
Variable srv : NetState -> Request -> NetState * FetchResult.
Variable env : Env.
Variable B : Body J.

Notation "x <- m ;; k" := (bind m (fun x => k))
  (at level 100, m at next level, right associativity).
Notation "m ;;; k" := (bind m (fun _ => k))
  (at level 100, right associativity).

(** [await response.json()] *)
Definition response_json (response : Response) : @Action NetState J :=
  fun w => (json B response, w).

(** [const errorData = await response.json().catch(() => ({}));
     throw new Error(errorData.error?.message || fallback)] *)
Definition throw_error_data {A} (response : Response) (fallback : string)
    : @Action NetState A :=
  let errorData :=
    match json B response with
    | Returned d => d
    | Thrown _ => empty_object B
    end in
  throw (error_from B errorData fallback).

Definition stats_endpoint : string :=
  template (NEXT_PUBLIC_API_URL env) +:+ "/api/user/stats".

Definition login_endpoint : string :=
  template (NEXT_PUBLIC_API_URL env) +:+ "/api/auth/login".

(** The options [{ method: 'GET' }]. *)
Definition stats_options : FetchWithAuthOptions :=
  {| skipRefresh := None;
     fetchOptions := {| method := Some "GET"; body := None; headers := None |} |}.

(** The action that goes through [fetchWithAuth]. *)
Definition getUsersStats : Action J :=
  response <- fetchWithAuth srv env stats_endpoint stats_options ;;
  if negb (ok response)
  then throw_error_data response
         ("Failed to fetch stats: " +:+ statusText response)
  else response_json response.

(** The request of [login]: only a [Content-Type] header. *)
Definition login_request (email password : string) : Request :=
  {| req_url := login_endpoint;
     req_method := Some "POST";
     req_body := Some (stringify B email password);
     req_headers := {["Content-Type" := "application/json"]} |}.

Definition login (email password : string) : Action J :=
  response <- fetch srv (login_request email password) ;;
  if negb (ok response)
  then throw_error_data response ("Login failed: " +:+ statusText response)
  else
    let setCookieHeaders := setCookie response in
    (if 0 <? Z.of_nat (length setCookieHeaders)
     then extractAndSetCookies env setCookieHeaders
     else ret tt) ;;;
    response_json response.

End ServerActions.

(** [server/get-users-stats-action.ts]: the action that calls [requireAuth]
    and then plain [fetch]. *)
Module Guarded.
Section Guarded.

Context {NetState J : Type}.
Variable srv : NetState -> Request -> NetState * FetchResult.
Variable env : Env.
Variable B : Body J.

Notation "x <- m ;; k" := (bind m (fun x => k))
  (at level 100, m at next level, right associativity).
Notation "m ;;; k" := (bind m (fun _ => k))
  (at level 100, right associativity).

(** [fetch(url, { method: 'GET', headers })] *)
Definition stats_request (hdrs : gmap string string) : Request :=
  {| req_url := stats_endpoint env;
     req_method := Some "GET";
     req_body := None;
     req_headers := hdrs |}.

Definition getUsersStats : @Action NetState J :=
  requireAuth ;;;
  hdrs <- getAuthHeaders ;;
  response <- fetch srv (stats_request hdrs) ;;
  if negb (ok response)
  then throw_error_data B response
         ("Failed to fetch stats: " +:+ statusText response)
  else response_json B response.

End Guarded.
End Guarded.

(** A decoder for the concrete scenarios: the decoded value is the body
    text, a body that is not empty decodes, and the error carries the
    fallback text. *)
Definition text_body : Body string :=
  {| json := fun r =>
       match resp_body r with
       | EmptyString => Thrown (NewError "Unexpected end of JSON input")
       | String c s => Returned (String c s)
       end;
     empty_object := "{}";
     error_from := fun _ fallback => NewError fallback;
     stringify := fun email password => email +:+ ":" +:+ password |}.

Definition resp_login : Response :=
  {| status := 200; statusText := "OK";
     setCookie := ["access_token=AAA; Path=/; HttpOnly";
                   "refresh_token=BBB; Path=/; HttpOnly"];
     resp_body := "{user}" |}.

(** Only Refresh=BBB: the access cookie has expired in the browser. *)
Definition jar_BBB : gmap string Cookie :=
  <["refresh_token" := mkCookie "BBB" None]> ∅.

(** ** How the actions run *)

Section Runs.

Context {NetState : Type}.
Variable srv : NetState -> Request -> NetState * FetchResult.
Variable env : Env.

Implicit Types (w : @World NetState) (j : gmap string Cookie).

Lemma bind_returned {A B} (m : Action A) (k : A -> Action B) w a w' :
  m w = (Returned a, w') -> bind m k w = k a w'.
Proof. intros Hm. unfold bind. now rewrite Hm. Qed.

Lemma bind_thrown {A B} (m : Action A) (k : A -> Action B) w e w' :
  m w = (Thrown e, w') -> bind m k w = (Thrown e, w').
Proof. intros Hm. unfold bind. now rewrite Hm. Qed.

Lemma try_catch_returned {A} (m : Action A) h w a w' :
  m w = (Returned a, w') -> try_catch m h w = (Returned a, w').
Proof. intros Hm. unfold try_catch. now rewrite Hm. Qed.

Lemma try_catch_thrown {A} (m : Action A) h w e w' :
  m w = (Thrown e, w') -> try_catch m h w = h e w'.
Proof. intros Hm. unfold try_catch. now rewrite Hm. Qed.

Lemma with_jar_id w : with_jar (jar w) w = w.
Proof. now destruct w. Qed.

Lemma with_jar_twice j1 j2 w : with_jar j2 (with_jar j1 w) = with_jar j2 w.
Proof. reflexivity. Qed.

Lemma getAuthToken_run w :
  getAuthToken w = (Returned (token "access_token" (jar w)), w).
Proof. reflexivity. Qed.

Lemma getRefreshToken_run w :
  getRefreshToken w = (Returned (token "refresh_token" (jar w)), w).
Proof. reflexivity. Qed.

Lemma getAuthHeaders_run w :
  getAuthHeaders w = (Returned (authHeaders (jar w)), w).
Proof. reflexivity. Qed.

Lemma clearAuthCookies_run w :
  clearAuthCookies w = (Returned tt, with_jar (cleared (jar w)) w).
Proof. reflexivity. Qed.

Lemma store_directive_run h w :
  bind
    match accessTokenMatch h with
    | Some v => cookies_set "access_token" v (access_options env)
    | None => ret tt
    end
    (fun _ =>
       match refreshTokenMatch h with
       | Some v => cookies_set "refresh_token" v (refresh_options env)
       | None => ret tt
       end) w
  = (Returned tt, with_jar (store_directive env (jar w) h) w).
Proof.
  unfold store_directive, bind, cookies_set, ret.
  destruct (accessTokenMatch h), (refreshTokenMatch h); cbn [jar with_jar];
    try reflexivity; now rewrite with_jar_id.
Qed.

Lemma extractAndSetCookies_run hs w :
  extractAndSetCookies env hs w = (Returned tt, with_jar (ingest env hs (jar w)) w).
Proof.
  unfold extractAndSetCookies, ingest. revert w.
  induction hs as [|h hs IH]; intros w.
  - cbn [for_of fold_left]. unfold ret. now rewrite with_jar_id.
  - cbn [for_of fold_left].
    erewrite bind_returned by apply store_directive_run.
    rewrite IH. cbn [jar with_jar]. reflexivity.
Qed.

Lemma fetch_delivered req w n' r :
  srv (net w) req = (n', Delivered r) ->
  fetch srv req w =
    (Returned r, mkWorld (jar w) n' (wire w ++ [req]) (console w)).
Proof. intros Hs. unfold fetch. now rewrite Hs. Qed.

Lemma fetch_faulted req w n' msg :
  srv (net w) req = (n', Faulted msg) ->
  fetch srv req w =
    (Thrown (FetchFault msg), mkWorld (jar w) n' (wire w ++ [req]) (console w)).
Proof. intros Hs. unfold fetch. now rewrite Hs. Qed.

End Runs.

(** ** The store: patterns, ingestion, headers, clearing *)

Example accessTokenMatch_directive :
  accessTokenMatch "access_token=CCC; Path=/; HttpOnly" = Some "CCC".
Proof. reflexivity. Qed.

Example accessTokenMatch_skips_empty_value :
  accessTokenMatch "access_token=;access_token=abc" = Some "abc".
Proof. reflexivity. Qed.

Example accessTokenMatch_other_kind :
  accessTokenMatch "refresh_token=DDD; Path=/; HttpOnly" = None.
Proof. reflexivity. Qed.

Lemma match_here_truthy lit s v :
  match_here lit s = Some v -> truthy (Some v) = true.
Proof.
  unfold match_here. destruct (strip_prefix lit s) as [rest|]; [|discriminate].
  destruct (take_value rest); [discriminate|].
  intros [= <-]. reflexivity.
Qed.

Lemma match_from_truthy lit s v :
  match_from lit s = Some v -> truthy (Some v) = true.
Proof.
  induction s as [|c s IH]; cbn [match_from].
  - destruct (match_here lit "") eqn:E; [|discriminate].
    intros [= <-]. eauto using match_here_truthy.
  - destruct (match_here lit (String c s)) eqn:E; [|exact IH].
    intros [= <-]. eauto using match_here_truthy.
Qed.

Lemma last_match_snoc pat hs h :
  last_match pat (hs ++ [h]) =
    match pat h with Some v => Some v | None => last_match pat hs end.
Proof. unfold last_match. now rewrite fold_left_app. Qed.

Lemma last_match_truthy lit hs v :
  last_match (match_from lit) hs = Some v -> truthy (Some v) = true.
Proof.
  induction hs as [|h hs IH] using rev_ind; [discriminate|].
  rewrite last_match_snoc. destruct (match_from lit h) eqn:E; [|exact IH].
  intros [= <-]. eauto using match_from_truthy.
Qed.

Lemma ingest_snoc env hs h j :
  ingest env (hs ++ [h]) j = store_directive env (ingest env hs j) h.
Proof. unfold ingest. now rewrite fold_left_app. Qed.

Lemma store_directive_access env (j : gmap string Cookie) h :
  store_directive env j h !! "access_token" =
    match accessTokenMatch h with
    | Some v => Some (mkCookie v (Some (access_options env)))
    | None => j !! "access_token"
    end.
Proof.
  unfold store_directive.
  destruct (refreshTokenMatch h), (accessTokenMatch h);
    rewrite ?lookup_insert_ne by done; rewrite ?lookup_insert_eq; reflexivity.
Qed.

Lemma store_directive_refresh env (j : gmap string Cookie) h :
  store_directive env j h !! "refresh_token" =
    match refreshTokenMatch h with
    | Some v => Some (mkCookie v (Some (refresh_options env)))
    | None => j !! "refresh_token"
    end.
Proof.
  unfold store_directive.
  destruct (refreshTokenMatch h), (accessTokenMatch h);
    rewrite ?lookup_insert_eq; rewrite ?lookup_insert_ne by done;
    rewrite ?lookup_insert_eq; reflexivity.
Qed.

Lemma store_directive_other env (j : gmap string Cookie) h k :
  k <> "access_token" -> k <> "refresh_token" ->
  store_directive env j h !! k = j !! k.
Proof.
  intros Ha Hr. unfold store_directive.
  destruct (refreshTokenMatch h), (accessTokenMatch h);
    rewrite ?lookup_insert_ne by done; reflexivity.
Qed.

(** After ingestion the access cookie is the one the last access
    assignment of the sequence gave, with the access options; without such
    an assignment it is the cookie that was there. *)
Lemma ingest_access env hs (j : gmap string Cookie) :
  ingest env hs j !! "access_token" =
    match last_match accessTokenMatch hs with
    | Some v => Some (mkCookie v (Some (access_options env)))
    | None => j !! "access_token"
    end.
Proof.
  induction hs as [|h hs IH] using rev_ind; [reflexivity|].
  rewrite ingest_snoc, last_match_snoc, store_directive_access.
  destruct (accessTokenMatch h); [reflexivity|exact IH].
Qed.

Lemma ingest_refresh env hs (j : gmap string Cookie) :
  ingest env hs j !! "refresh_token" =
    match last_match refreshTokenMatch hs with
    | Some v => Some (mkCookie v (Some (refresh_options env)))
    | None => j !! "refresh_token"
    end.
Proof.
  induction hs as [|h hs IH] using rev_ind; [reflexivity|].
  rewrite ingest_snoc, last_match_snoc, store_directive_refresh.
  destruct (refreshTokenMatch h); [reflexivity|exact IH].
Qed.

Lemma ingest_other env hs (j : gmap string Cookie) k :
  k <> "access_token" -> k <> "refresh_token" ->
  ingest env hs j !! k = j !! k.
Proof.
  intros Ha Hr. induction hs as [|h hs IH] using rev_ind; [reflexivity|].
  rewrite ingest_snoc, store_directive_other by assumption. exact IH.
Qed.

Lemma cleared_access (j : gmap string Cookie) :
  cleared j !! "access_token" = Some deleted_cookie.
Proof.
  unfold cleared. rewrite lookup_insert_ne by done. apply lookup_insert_eq.
Qed.

Lemma cleared_refresh (j : gmap string Cookie) :
  cleared j !! "refresh_token" = Some deleted_cookie.
Proof. unfold cleared. apply lookup_insert_eq. Qed.

Lemma cleared_idempotent (j : gmap string Cookie) : cleared (cleared j) = cleared j.
Proof.
  apply map_eq. intros k. unfold cleared.
  destruct (decide (k = "refresh_token")) as [->|Hr].
  { now rewrite !lookup_insert_eq. }
  destruct (decide (k = "access_token")) as [->|Ha].
  { rewrite !(lookup_insert_ne _ "refresh_token") by congruence.
    now rewrite !lookup_insert_eq. }
  now rewrite !lookup_insert_ne by congruence.
Qed.

Lemma truthy_template v : truthy v = true -> v = Some (template v).
Proof. destruct v as [[|c s]|]; try discriminate. reflexivity. Qed.

Lemma auth_headers_of_nil :
  auth_headers_of [] = {["Content-Type" := "application/json"]}.
Proof. reflexivity. Qed.

Lemma auth_headers_of_cons x l :
  auth_headers_of (x :: l) =
    <["Cookie" := String.concat "; " (x :: l)]>
      {["Content-Type" := "application/json"]}.
Proof.
  unfold auth_headers_of.
  destruct (0 <? Z.of_nat (length (x :: l))) eqn:E; [reflexivity|].
  apply Z.ltb_ge in E. cbn [length] in E. lia.
Qed.

Lemma authHeaders_content_type (j : gmap string Cookie) :
  authHeaders j !! "Content-Type" = Some "application/json".
Proof.
  unfold authHeaders, push_if.
  destruct (truthy (token "access_token" j)), (truthy (token "refresh_token" j));
    cbn [app]; rewrite ?auth_headers_of_cons, ?auth_headers_of_nil;
    rewrite ?lookup_insert_ne by done; apply lookup_singleton_eq.
Qed.

Lemma authHeaders_cookie (j : gmap string Cookie) :
  authHeaders j !! "Cookie" =
    cookie_entry (token "access_token" j) (token "refresh_token" j).
Proof.
  unfold authHeaders, push_if, cookie_entry.
  destruct (truthy (token "access_token" j)), (truthy (token "refresh_token" j));
    cbn [app]; rewrite ?auth_headers_of_cons, ?auth_headers_of_nil;
    rewrite ?lookup_insert_eq; reflexivity.
Qed.

Lemma authHeaders_keys (j : gmap string Cookie) k :
  k <> "Content-Type" -> k <> "Cookie" -> authHeaders j !! k = None.
Proof.
  intros Hc Hk. unfold authHeaders, auth_headers_of.
  destruct (0 <? _); rewrite ?lookup_insert_ne by congruence;
    now rewrite lookup_singleton_ne by congruence.
Qed.

Lemma spread_headers_lookup base extra k :
  spread_headers base extra !! k =
    match default ∅ extra !! k with
    | Some c => Some c
    | None => base !! k
    end.
Proof.
  unfold spread_headers. rewrite lookup_union.
  destruct (default ∅ extra !! k), (base !! k); reflexivity.
Qed.


(** ** The paths through [fetchWithAuth] *)

Section Paths.

Context {NetState : Type}.
Variable srv : NetState -> Request -> NetState * FetchResult.
Variable env : Env.
Variables (url : string) (options : FetchWithAuthOptions).
Variable w : @World NetState.

Let fo := fetchOptions options.
Let req1 := original_request url fo (authHeaders (jar w)).
Let rt := token "refresh_token" (jar w).
Let reqR := refresh_request env rt.

(** The guarded call of [extractAndSetCookies] (lines 176-180). *)
Lemma guarded_ingest_run hs (w0 : @World NetState) :
  (if 0 <? Z.of_nat (length hs) then extractAndSetCookies env hs else ret tt) w0
  = (Returned tt, with_jar (ingest env hs (jar w0)) w0).
Proof.
  destruct hs as [|h hs].
  - cbn. unfold ret. now rewrite with_jar_id.
  - replace (0 <? Z.of_nat (length (h :: hs))) with true
      by (symmetry; apply Z.ltb_lt; cbn [length]; lia).
    apply extractAndSetCookies_run.
Qed.

(** No renewal: the first response is the outcome. *)
Lemma path_no_renewal n1 r1 :
  srv (net w) req1 = (n1, Delivered r1) ->
  (status r1 =? 401) && refresh_enabled options = false ->
  fetchWithAuth srv env url options w =
    (Returned r1, mkWorld (jar w) n1 (wire w ++ [req1]) (console w)).
Proof.
  intros H1 Hc. unfold fetchWithAuth.
  erewrite bind_returned by apply getAuthHeaders_run.
  erewrite bind_returned by (apply fetch_delivered; exact H1).
  rewrite Hc. reflexivity.
Qed.

(** 401, renewal enabled, no refresh token: the throw of line 153. *)
Lemma path_no_refresh_token n1 r1 :
  srv (net w) req1 = (n1, Delivered r1) ->
  status r1 = 401 -> refresh_enabled options = true ->
  truthy rt = false ->
  fetchWithAuth srv env url options w =
    (Thrown no_refresh_credential,
     mkWorld (jar w) n1 (wire w ++ [req1]) (console w)).
Proof.
  intros H1 Hs He Ht. unfold fetchWithAuth.
  erewrite bind_returned by apply getAuthHeaders_run.
  erewrite bind_returned by (apply fetch_delivered; exact H1).
  rewrite Hs, He. cbn [Z.eqb Pos.eqb andb].
  erewrite bind_returned by apply getRefreshToken_run.
  cbn [jar]. fold rt. rewrite Ht. reflexivity.
Qed.

(** The renewal call faults: the handler of line 195 clears the store and
    rethrows the fault. *)
Lemma path_renewal_faulted n1 r1 n2 msg :
  srv (net w) req1 = (n1, Delivered r1) ->
  status r1 = 401 -> refresh_enabled options = true ->
  truthy rt = true ->
  srv n1 reqR = (n2, Faulted msg) ->
  fetchWithAuth srv env url options w =
    (Thrown (FetchFault msg),
     mkWorld (cleared (jar w)) n2 (wire w ++ [req1; reqR]) (console w)).
Proof.
  intros H1 Hs He Ht H2. unfold fetchWithAuth.
  erewrite bind_returned by apply getAuthHeaders_run.
  erewrite bind_returned by (apply fetch_delivered; exact H1).
  rewrite Hs, He. cbn [Z.eqb Pos.eqb andb].
  erewrite bind_returned by apply getRefreshToken_run.
  cbn [jar]. fold rt. rewrite Ht. cbn [negb].
  erewrite try_catch_thrown
    by (eapply bind_thrown; apply fetch_faulted; exact H2).
  erewrite bind_returned by apply clearAuthCookies_run.
  unfold throw. cbn [with_jar jar net wire console].
  now rewrite <- app_assoc.
Qed.

(** The renewal call answers with a non-success status: the store is
    cleared (line 171, and again by the handler) and [session_expired]
    surfaces. *)
Lemma path_renewal_rejected n1 r1 n2 r2 :
  srv (net w) req1 = (n1, Delivered r1) ->
  status r1 = 401 -> refresh_enabled options = true ->
  truthy rt = true ->
  srv n1 reqR = (n2, Delivered r2) -> ok r2 = false ->
  fetchWithAuth srv env url options w =
    (Thrown session_expired,
     mkWorld (cleared (jar w)) n2 (wire w ++ [req1; reqR]) (console w)).
Proof.
  intros H1 Hs He Ht H2 Hok. unfold fetchWithAuth.
  erewrite bind_returned by apply getAuthHeaders_run.
  erewrite bind_returned by (apply fetch_delivered; exact H1).
  rewrite Hs, He. cbn [Z.eqb Pos.eqb andb].
  erewrite bind_returned by apply getRefreshToken_run.
  cbn [jar]. fold rt. rewrite Ht. cbn [negb].
  erewrite try_catch_thrown.
  2:{ erewrite bind_returned by (apply fetch_delivered; exact H2).
      rewrite Hok. cbn [negb].
      eapply bind_thrown.
      erewrite bind_returned by apply clearAuthCookies_run.
      reflexivity. }
  erewrite bind_returned by apply clearAuthCookies_run.
  unfold throw. cbn [with_jar jar net wire console].
  now rewrite cleared_idempotent, <- app_assoc.
Qed.

(** The renewal call succeeds: what it set is stored, the headers are built
    again from the store and the original request goes out once more. *)
Let renewed (r2 : Response) := ingest env (setCookie r2) (jar w).
Let req3 (r2 : Response) := original_request url fo (authHeaders (renewed r2)).

Lemma path_retry_delivered n1 r1 n2 r2 n3 r3 :
  srv (net w) req1 = (n1, Delivered r1) ->
  status r1 = 401 -> refresh_enabled options = true ->
  truthy rt = true ->
  srv n1 reqR = (n2, Delivered r2) -> ok r2 = true ->
  srv n2 (req3 r2) = (n3, Delivered r3) ->
  fetchWithAuth srv env url options w =
    (Returned r3,
     mkWorld (renewed r2) n3 (wire w ++ [req1; reqR; req3 r2]) (console w)).
Proof.
  intros H1 Hs He Ht H2 Hok H3. unfold fetchWithAuth.
  erewrite bind_returned by apply getAuthHeaders_run.
  erewrite bind_returned by (apply fetch_delivered; exact H1).
  rewrite Hs, He. cbn [Z.eqb Pos.eqb andb].
  erewrite bind_returned by apply getRefreshToken_run.
  cbn [jar]. fold rt. rewrite Ht. cbn [negb].
  erewrite try_catch_returned; [reflexivity|].
  erewrite bind_returned by (apply fetch_delivered; exact H2).
  rewrite Hok. cbn [negb].
  erewrite bind_returned by reflexivity.
  cbv zeta.
  erewrite bind_returned by apply guarded_ingest_run.
  erewrite bind_returned by apply getAuthHeaders_run.
  erewrite bind_returned by (apply fetch_delivered; exact H3).
  unfold ret. cbn [with_jar jar net wire console].
  now rewrite <- !app_assoc.
Qed.

Lemma path_retry_faulted n1 r1 n2 r2 n3 msg :
  srv (net w) req1 = (n1, Delivered r1) ->
  status r1 = 401 -> refresh_enabled options = true ->
  truthy rt = true ->
  srv n1 reqR = (n2, Delivered r2) -> ok r2 = true ->
  srv n2 (req3 r2) = (n3, Faulted msg) ->
  fetchWithAuth srv env url options w =
    (Thrown (FetchFault msg),
     mkWorld (cleared (renewed r2)) n3 (wire w ++ [req1; reqR; req3 r2])
       (console w)).
Proof.
  intros H1 Hs He Ht H2 Hok H3. unfold fetchWithAuth.
  erewrite bind_returned by apply getAuthHeaders_run.
  erewrite bind_returned by (apply fetch_delivered; exact H1).
  rewrite Hs, He. cbn [Z.eqb Pos.eqb andb].
  erewrite bind_returned by apply getRefreshToken_run.
  cbn [jar]. fold rt. rewrite Ht. cbn [negb].
  erewrite try_catch_thrown.
  2:{ erewrite bind_returned by (apply fetch_delivered; exact H2).
      rewrite Hok. cbn [negb].
      erewrite bind_returned by reflexivity.
      cbv zeta.
      erewrite bind_returned by apply guarded_ingest_run.
      erewrite bind_returned by apply getAuthHeaders_run.
      eapply bind_thrown. apply fetch_faulted. exact H3. }
  erewrite bind_returned by apply clearAuthCookies_run.
  unfold throw. cbn [with_jar jar net wire console].
  now rewrite <- !app_assoc.
Qed.

End Paths.

(** Both ways in which the renewal round trip can fail. *)
Lemma path_renewal_failed
    {NetState} (srv : NetState -> Request -> NetState * FetchResult)
    (env : Env) (url : string) (options : FetchWithAuthOptions)
    (w : @World NetState) (n1 n2 : NetState) (r1 : Response)
    (res2 : FetchResult) :
  let req1 := original_request url (fetchOptions options) (authHeaders (jar w)) in
  let reqR := refresh_request env (token "refresh_token" (jar w)) in
  srv (net w) req1 = (n1, Delivered r1) ->
  status r1 = 401 ->
  refresh_enabled options = true ->
  truthy (token "refresh_token" (jar w)) = true ->
  srv n1 reqR = (n2, res2) ->
  renewal_failed res2 ->
  fetchWithAuth srv env url options w =
    (Thrown match res2 with
            | Delivered _ => session_expired
            | Faulted msg => FetchFault msg
            end,
     mkWorld (cleared (jar w)) n2 (wire w ++ [req1; reqR]) (console w)).
Proof.
  intros req1 reqR H1 Hs He Ht H2 Hfail.
  destruct res2 as [r2|msg]; cbn [renewal_failed] in Hfail.
  - apply (path_renewal_rejected srv env url options w n1 r1 n2 r2);
      assumption.
  - apply (path_renewal_faulted srv env url options w n1 r1 n2 msg);
      assumption.
Qed.

(** ** Further facts about the store, the patterns and the paths *)

Lemma requireAuth_run {NetState} (w : @World NetState) :
  requireAuth w =
    (if truthy (token "access_token" (jar w))
     then Returned (template (token "access_token" (jar w)))
     else Thrown unauthenticated, w).
Proof.
  unfold requireAuth.
  erewrite bind_returned by apply getAuthToken_run.
  destruct (truthy (token "access_token" (jar w))); reflexivity.
Qed.

Lemma cleared_other (j : gmap string Cookie) k :
  k <> "access_token" -> k <> "refresh_token" -> cleared j !! k = j !! k.
Proof.
  intros Ha Hr. unfold cleared. now rewrite !lookup_insert_ne by congruence.
Qed.

Lemma cleared_ingest env hs (j : gmap string Cookie) :
  cleared (ingest env hs j) = cleared j.
Proof.
  apply map_eq. intros k.
  destruct (decide (k = "access_token")) as [->|Ha].
  { now rewrite !cleared_access. }
  destruct (decide (k = "refresh_token")) as [->|Hr].
  { now rewrite !cleared_refresh. }
  rewrite !cleared_other by assumption. now apply ingest_other.
Qed.


Lemma take_value_stops v rest :
  no_semicolon v = true ->
  take_value (v +:+ String ";" rest) = v /\ take_value v = v.
Proof.
  induction v as [|c v IH]; intros Hv.
  - split; reflexivity.
  - cbn [no_semicolon] in Hv. apply andb_true_iff in Hv as [Hc Hv].
    apply negb_true_iff in Hc. destruct (IH Hv) as [IH1 IH2].
    simpl. rewrite Hc, IH1, IH2. split; reflexivity.
Qed.

Lemma strip_prefix_app p s : strip_prefix p (p +:+ s) = Some s.
Proof.
  induction p as [|a p IH]; [reflexivity|].
  simpl. now rewrite Ascii.eqb_refl.
Qed.



Lemma match_from_at_start lit s v :
  match_here lit s = Some v -> match_from lit s = Some v.
Proof. intros H. destruct s; cbn [match_from]; now rewrite H. Qed.


Lemma authHeaders_cleared (j : gmap string Cookie) :
  authHeaders (cleared j) = {["Content-Type" := "application/json"]}.
Proof.
  unfold authHeaders, token.
  now rewrite cleared_access, cleared_refresh.
Qed.

Lemma path_initial_fault
    {NetState} (srv : NetState -> Request -> NetState * FetchResult)
    (env : Env) (url : string) (options : FetchWithAuthOptions)
    (w : @World NetState) (n1 : NetState) (msg : string) :
  let req1 := original_request url (fetchOptions options) (authHeaders (jar w)) in
  srv (net w) req1 = (n1, Faulted msg) ->
  fetchWithAuth srv env url options w =
    (Thrown (FetchFault msg),
     mkWorld (jar w) n1 (wire w ++ [req1]) (console w)).
Proof.
  intros req1 H1. unfold fetchWithAuth.
  erewrite bind_returned by apply getAuthHeaders_run.
  eapply bind_thrown. apply fetch_faulted. exact H1.
Qed.

(** Every run of [fetchWithAuth] is one of six paths. *)
Lemma fetchWithAuth_cases
    {NetState} (srv : NetState -> Request -> NetState * FetchResult)
    (env : Env) (url : string) (options : FetchWithAuthOptions)
    (w : @World NetState) :
  let fo := fetchOptions options in
  let req1 := original_request url fo (authHeaders (jar w)) in
  let rt := token "refresh_token" (jar w) in
  let reqR := refresh_request env rt in
  let out := fetchWithAuth srv env url options w in
  let W j n l := mkWorld j n (wire w ++ l) (console w) in
  (exists n1 msg, out = (Thrown (FetchFault msg), W (jar w) n1 [req1])) \/
  (exists n1 r1, (status r1 =? 401) && refresh_enabled options = false /\
     out = (Returned r1, W (jar w) n1 [req1])) \/
  (exists n1, out = (Thrown no_refresh_credential, W (jar w) n1 [req1])) \/
  (exists n2 e, (e = session_expired \/ exists msg, e = FetchFault msg) /\
     out = (Thrown e, W (cleared (jar w)) n2 [req1; reqR])) \/
  (exists n3 r2 r3,
     out = (Returned r3,
            W (ingest env (setCookie r2) (jar w)) n3
              [req1; reqR;
               original_request url fo
                 (authHeaders (ingest env (setCookie r2) (jar w)))])) \/
  (exists n3 r2 msg,
     out = (Thrown (FetchFault msg),
            W (cleared (ingest env (setCookie r2) (jar w))) n3
              [req1; reqR;
               original_request url fo
                 (authHeaders (ingest env (setCookie r2) (jar w)))])).
Proof.
  intros fo req1 rt reqR out W. unfold out, W.
  destruct (srv (net w) req1) as [n1 [r1|msg]] eqn:H1.
  2:{ left. exists n1, msg. now apply path_initial_fault. }
  destruct ((status r1 =? 401) && refresh_enabled options) eqn:Hc.
  2:{ right. left. exists n1, r1. split; [exact Hc|].
      now apply (path_no_renewal srv env url options w n1 r1). }
  apply andb_true_iff in Hc as [Hs He]. apply Z.eqb_eq in Hs.
  destruct (truthy rt) eqn:Ht.
  2:{ right. right. left. exists n1.
      now apply (path_no_refresh_token srv env url options w n1 r1). }
  destruct (srv n1 reqR) as [n2 [r2|msg]] eqn:H2.
  2:{ right. right. right. left. exists n2, (FetchFault msg).
      split; [right; now exists msg|].
      now apply (path_renewal_faulted srv env url options w n1 r1 n2 msg). }
  destruct (ok r2) eqn:Hok.
  2:{ right. right. right. left. exists n2, session_expired.
      split; [now left|].
      now apply (path_renewal_rejected srv env url options w n1 r1 n2 r2). }
  destruct (srv n2 (original_request url fo
                      (authHeaders (ingest env (setCookie r2) (jar w)))))
    as [n3 [r3|msg]] eqn:H3.
  - right. right. right. right. left. exists n3, r2, r3.
    now apply (path_retry_delivered srv env url options w n1 r1 n2 r2 n3 r3).
  - right. right. right. right. right. exists n3, r2, msg.
    now apply (path_retry_faulted srv env url options w n1 r1 n2 r2 n3 msg).
Qed.

Lemma logout_run
    {NetState} (srv : NetState -> Request -> NetState * FetchResult)
    (env : Env) (w : @World NetState) :
  let rt := token "refresh_token" (jar w) in
  let call := logout_request env rt in
  logout srv env w =
    (Returned tt,
     mkWorld (cleared (jar w))
       (if truthy rt then fst (srv (net w) call) else net w)
       (wire w ++ if truthy rt then [call] else [])
       (console w ++
          if truthy rt then
            match snd (srv (net w) call) with
            | Faulted msg => [("Logout request failed:", FetchFault msg)]
            | Delivered _ => []
            end
          else [])).
Proof.
  intros rt call. unfold logout.
  erewrite bind_returned by apply getRefreshToken_run.
  fold rt. destruct (truthy rt).
  - fold call. destruct (srv (net w) call) as [n' [r|msg]] eqn:Hs.
    + erewrite bind_returned.
      2:{ eapply try_catch_returned.
          erewrite bind_returned by (apply fetch_delivered; exact Hs).
          reflexivity. }
      rewrite clearAuthCookies_run.
      cbn [with_jar jar net wire console fst snd]. now rewrite app_nil_r.
    + erewrite bind_returned.
      2:{ erewrite try_catch_thrown
            by (eapply bind_thrown; apply fetch_faulted; exact Hs).
          reflexivity. }
      rewrite clearAuthCookies_run. reflexivity.
  - erewrite bind_returned by reflexivity.
    rewrite clearAuthCookies_run.
    cbn [with_jar jar net wire console]. now rewrite !app_nil_r.
Qed.

Lemma getUsersStats_run
    {NetState J} (srv : NetState -> Request -> NetState * FetchResult)
    (env : Env) (B : Body J) (w : @World NetState) :
  getUsersStats srv env B w =
    match fetchWithAuth srv env (stats_endpoint env) stats_options w with
    | (Returned r, w') =>
        (if ok r then json B r
         else Thrown (error_from B
                        match json B r with
                        | Returned d => d
                        | Thrown _ => empty_object B
                        end
                        ("Failed to fetch stats: " +:+ statusText r)), w')
    | (Thrown e, w') => (Thrown e, w')
    end.
Proof.
  unfold getUsersStats, bind.
  destruct (fetchWithAuth srv env (stats_endpoint env) stats_options w)
    as [[r|e] w']; [|reflexivity].
  destruct (ok r); reflexivity.
Qed.

Lemma fetchWithAuth_first_request
    {NetState} (srv : NetState -> Request -> NetState * FetchResult)
    (env : Env) (url : string) (options : FetchWithAuthOptions)
    (w : @World NetState) :
  exists extra,
    wire (world_after (fetchWithAuth srv env url options w)) =
      (wire w ++
       original_request url (fetchOptions options) (authHeaders (jar w))
         :: extra)%list.
Proof.
  destruct (fetchWithAuth_cases srv env url options w)
    as [(n1 & msg & ->) | [(n1 & r1 & _ & ->) | [(n1 & ->) |
        [(n2 & e & _ & ->) | [(n3 & r2 & r3 & ->) | (n3 & r2 & msg & ->)]]]]];
    cbn [world_after snd wire]; eexists; reflexivity.
Qed.

(** ** The code's tests, requests and stores, written out

    The statements of the claims spell out requests, header maps and
    stored cookies in full; these lemmas connect the written-out forms to
    the definitions of the code. *)

Lemma ok_true_iff r : ok r = true <-> 200 <= status r <= 299.
Proof. unfold ok. rewrite andb_true_iff, !Z.leb_le. reflexivity. Qed.

Lemma ok_false_iff r : ok r = false <-> ~ (200 <= status r <= 299).
Proof.
  rewrite <- ok_true_iff. destruct (ok r); split; congruence.
Qed.

Lemma refresh_enabled_iff options :
  refresh_enabled options = true <-> skipRefresh options <> Some true.
Proof.
  unfold refresh_enabled.
  destruct (skipRefresh options) as [[|]|]; split; congruence.
Qed.

Lemma truthy_nonempty v : truthy (Some v) = true <-> v <> "".
Proof. destruct v; cbn [truthy]; split; congruence. Qed.

Lemma truthy_false_iff o : truthy o = false <-> o = None \/ o = Some "".
Proof.
  destruct o as [[|c s]|]; cbn [truthy]; split; try tauto; try congruence.
  - intros [H|H]; discriminate.
Qed.

Lemma authHeaders_written_out (j : gmap string Cookie) :
  authHeaders j =
    match token "access_token" j, token "refresh_token" j with
    | Some (String c s), Some (String c' s') =>
        <["Cookie" := "access_token=" +:+ String c s +:+
                      "; refresh_token=" +:+ String c' s']>
          {["Content-Type" := "application/json"]}
    | Some (String c s), _ =>
        <["Cookie" := "access_token=" +:+ String c s]>
          {["Content-Type" := "application/json"]}
    | _, Some (String c' s') =>
        <["Cookie" := "refresh_token=" +:+ String c' s']>
          {["Content-Type" := "application/json"]}
    | _, _ => {["Content-Type" := "application/json"]}
    end.
Proof.
  unfold authHeaders, push_if.
  destruct (token "access_token" j) as [[|c s]|],
           (token "refresh_token" j) as [[|c' s']|];
    cbn [truthy app]; rewrite ?auth_headers_of_cons, ?auth_headers_of_nil;
    reflexivity.
Qed.

(** With a refresh credential in the store the original request carries a
    [Cookie] header (unless the caller's own header takes its place). *)
Lemma original_request_written_out url fo (j : gmap string Cookie) rt :
  token "refresh_token" j = Some rt -> rt <> "" ->
  original_request url fo (authHeaders j) =
    {| req_url := url; req_method := method fo; req_body := body fo;
       req_headers :=
         default ∅ (headers fo) ∪
         <["Cookie" :=
             match token "access_token" j with
             | Some (String c s) =>
                 "access_token=" +:+ String c s +:+ "; refresh_token=" +:+ rt
             | _ => "refresh_token=" +:+ rt
             end]> {["Content-Type" := "application/json"]} |}.
Proof.
  intros Hrt Hne. unfold original_request, spread_headers.
  rewrite authHeaders_written_out, Hrt.
  destruct rt as [|c' s']; [congruence|].
  destruct (token "access_token" j) as [[|c s]|]; reflexivity.
Qed.

Lemma refresh_request_written_out env rt :
  refresh_request env (Some rt) =
    {| req_url :=
         match NEXT_PUBLIC_API_URL env with
         | Some u => u
         | None => "undefined"
         end +:+ "/api/auth/refresh";
       req_method := Some "POST";
       req_body := None;
       req_headers :=
         <["Cookie" := "refresh_token=" +:+ rt]>
           {["Content-Type" := "application/json"]} |}.
Proof. reflexivity. Qed.

Lemma logout_request_written_out env rt :
  logout_request env (Some rt) =
    {| req_url :=
         match NEXT_PUBLIC_API_URL env with
         | Some u => u
         | None => "undefined"
         end +:+ "/api/auth/logout";
       req_method := Some "POST";
       req_body := None;
       req_headers :=
         <["Cookie" := "refresh_token=" +:+ rt]>
           {["Content-Type" := "application/json"]} |}.
Proof. reflexivity. Qed.

Lemma ingest_token_access env hs (j : gmap string Cookie) :
  token "access_token" (ingest env hs j) =
    match last_match accessTokenMatch hs with
    | Some v => Some v
    | None => token "access_token" j
    end.
Proof.
  unfold token. rewrite ingest_access.
  destruct (last_match accessTokenMatch hs); reflexivity.
Qed.

Lemma ingest_token_refresh env hs (j : gmap string Cookie) :
  token "refresh_token" (ingest env hs j) =
    match last_match refreshTokenMatch hs with
    | Some v => Some v
    | None => token "refresh_token" j
    end.
Proof.
  unfold token. rewrite ingest_refresh.
  destruct (last_match refreshTokenMatch hs); reflexivity.
Qed.

Lemma cleared_written_out (j : gmap string Cookie) :
  cleared j =
    <["refresh_token" :=
        {| cookie_value := ""; cookie_options := None;
           cookie_expires := Some 0 |}]>
      (<["access_token" :=
           {| cookie_value := ""; cookie_options := None;
              cookie_expires := Some 0 |}]> j).
Proof. reflexivity. Qed.

Lemma token_cleared (j : gmap string Cookie) :
  token "access_token" (cleared j) = Some "" /\
  token "refresh_token" (cleared j) = Some "".
Proof.
  unfold token. now rewrite cleared_access, cleared_refresh.
Qed.

(** What the readers answer on a store that was just cleared. *)
Lemma readers_after_clear {NetState} (w' : @World NetState) (j : gmap string Cookie) :
  jar w' = cleared j ->
  getAuthToken w' = (Returned (Some ""), w') /\
  getRefreshToken w' = (Returned (Some ""), w') /\
  getAuthHeaders w' =
    (Returned {["Content-Type" := "application/json"]}, w').
Proof.
  intros Hj. rewrite getAuthToken_run, getRefreshToken_run, getAuthHeaders_run, Hj.
  destruct (token_cleared j) as [-> ->]. rewrite authHeaders_cleared.
  repeat split.
Qed.

(** ** The credential authority *)



(** C8.  For every store, [getAuthHeaders] returns (it does not throw, and
    leaves the world as it is) a mapping that is exactly: the entry
    [Content-Type: application/json], plus, when at least one credential is
    present, one [Cookie] entry naming the credentials present, access
    first, joined by ["; "]; without any credential there is no [Cookie]
    entry.  A credential is present when its cookie holds a non-empty
    value, which is what the code tests: a cookie with the empty value (as
    the store's [delete] leaves it) carries no credential and is not
    listed. *)
Theorem getAuthHeaders_content_type_and_cookie
    {NetState} (w : @World NetState) :
  let content_type : gmap string string :=
    {["Content-Type" := "application/json"]} in
  getAuthHeaders w =
    (Returned
       match token "access_token" (jar w), token "refresh_token" (jar w) with
       | Some (String c s), Some (String c' s') =>
           <["Cookie" := "access_token=" +:+ String c s +:+
                         "; refresh_token=" +:+ String c' s']> content_type
       | Some (String c s), _ =>
           <["Cookie" := "access_token=" +:+ String c s]> content_type
       | _, Some (String c' s') =>
           <["Cookie" := "refresh_token=" +:+ String c' s']> content_type
       | _, _ => content_type
       end, w).
Proof.
  intros content_type. rewrite getAuthHeaders_run, authHeaders_written_out.
  reflexivity.
Qed.

Lemma getAuthHeaders_content_type_and_cookie_witness :
  getAuthHeaders (world_of jar_AAA_BBB []) =
    (Returned (<["Cookie" := "access_token=AAA; refresh_token=BBB"]>
                 {["Content-Type" := "application/json"]}),
     world_of jar_AAA_BBB []) /\
  getAuthHeaders (world_of jar_AAA []) =
    (Returned (<["Cookie" := "access_token=AAA"]>
                 {["Content-Type" := "application/json"]}),
     world_of jar_AAA []) /\
  getAuthHeaders (world_of jar_BBB []) =
    (Returned (<["Cookie" := "refresh_token=BBB"]>
                 {["Content-Type" := "application/json"]}),
     world_of jar_BBB []) /\
  getAuthHeaders (world_of ∅ []) =
    (Returned {["Content-Type" := "application/json"]}, world_of ∅ []).
Proof.
  split; [|split; [|split]].
  - exact (getAuthHeaders_content_type_and_cookie (world_of jar_AAA_BBB [])).
  - exact (getAuthHeaders_content_type_and_cookie (world_of jar_AAA [])).
  - exact (getAuthHeaders_content_type_and_cookie (world_of jar_BBB [])).
  - exact (getAuthHeaders_content_type_and_cookie (world_of ∅ [])).
Defined.

(** ** The request executor *)

(** C6.  When the first response has any status other than 401 (other 4xx
    and 5xx included), [fetchWithAuth] returns that very response; the only
    request issued is the original one (no renewal call, no retry) and the
    cookie store is the one the call started with. *)
Theorem fetchWithAuth_other_status_verbatim
    {NetState} (srv : NetState -> Request -> NetState * FetchResult)
    (env : Env) (url : string) (options : FetchWithAuthOptions)
    (w : @World NetState) (n1 : NetState) (r1 : Response) :
  let req1 := original_request url (fetchOptions options) (authHeaders (jar w)) in
  srv (net w) req1 = (n1, Delivered r1) ->
  status r1 <> 401 ->
  fetchWithAuth srv env url options w =
    (Returned r1, mkWorld (jar w) n1 (wire w ++ [req1]) (console w)).
Proof.
  intros req1 H1 Hs. apply path_no_renewal; [exact H1|].
  apply andb_false_iff. left. now apply Z.eqb_neq.
Qed.

Lemma fetchWithAuth_other_status_verbatim_witness :
  status resp_500 <> 401 /\
  result_of (fetchWithAuth scripted dev_env stats_url get_options
               (world_of jar_AAA_BBB [Delivered resp_500]))
  = Returned resp_500.
Proof.
  split; [vm_compute; discriminate|].
  rewrite (fetchWithAuth_other_status_verbatim scripted dev_env stats_url
             get_options (world_of jar_AAA_BBB [Delivered resp_500])
             [] resp_500).
  - reflexivity.
  - reflexivity.
  - vm_compute; discriminate.
Defined.

(** C7.  With [skipRefresh] set, a 401 on the first request is returned as
    it came: no renewal call and no retry are issued, nothing is thrown,
    and the store is untouched. *)
Theorem fetchWithAuth_skipRefresh_returns_401
    {NetState} (srv : NetState -> Request -> NetState * FetchResult)
    (env : Env) (url : string) (options : FetchWithAuthOptions)
    (w : @World NetState) (n1 : NetState) (r1 : Response) :
  let req1 := original_request url (fetchOptions options) (authHeaders (jar w)) in
  skipRefresh options = Some true ->
  srv (net w) req1 = (n1, Delivered r1) ->
  status r1 = 401 ->
  fetchWithAuth srv env url options w =
    (Returned r1, mkWorld (jar w) n1 (wire w ++ [req1]) (console w)).
Proof.
  intros req1 Hskip H1 Hs. apply path_no_renewal; [exact H1|].
  unfold refresh_enabled. rewrite Hskip. apply andb_false_r.
Qed.

Lemma fetchWithAuth_skipRefresh_returns_401_witness :
  fetchWithAuth scripted dev_env stats_url get_options_skip
    (world_of jar_AAA_BBB [Delivered resp_401; Delivered resp_renewed])
  = (Returned resp_401,
     mkWorld jar_AAA_BBB [Delivered resp_renewed]
       [original_request stats_url (fetchOptions get_options_skip)
          (authHeaders jar_AAA_BBB)] []).
Proof.
  apply (fetchWithAuth_skipRefresh_returns_401 scripted dev_env stats_url
           get_options_skip
           (world_of jar_AAA_BBB [Delivered resp_401; Delivered resp_renewed])
           [Delivered resp_renewed] resp_401);
    reflexivity.
Defined.

(** C4.  A 401 with renewal enabled and no refresh credential in the store
    (none stored, or an empty one) makes [fetchWithAuth] throw
    ["Unauthorized: No refresh token available"]; only the original request
    was issued and the store is exactly as before: nothing, the access
    credential in particular, is cleared. *)
Theorem fetchWithAuth_no_refresh_credential_keeps_store
    {NetState} (srv : NetState -> Request -> NetState * FetchResult)
    (env : Env) (url : string) (options : FetchWithAuthOptions)
    (w : @World NetState) (n1 : NetState) (r1 : Response) :
  let req1 := original_request url (fetchOptions options) (authHeaders (jar w)) in
  srv (net w) req1 = (n1, Delivered r1) ->
  status r1 = 401 ->
  refresh_enabled options = true ->
  truthy (token "refresh_token" (jar w)) = false ->
  fetchWithAuth srv env url options w =
    (Thrown no_refresh_credential,
     mkWorld (jar w) n1 (wire w ++ [req1]) (console w)).
Proof. intros req1. apply path_no_refresh_token. Qed.

Lemma fetchWithAuth_no_refresh_credential_keeps_store_witness :
  let out := fetchWithAuth scripted dev_env stats_url get_options
               (world_of jar_AAA [Delivered resp_401]) in
  result_of out = Thrown no_refresh_credential /\
  jar (world_after out) = jar_AAA /\
  jar (world_after out) !! "access_token" = Some (mkCookie "AAA" None).
Proof.
  cbv zeta.
  rewrite (fetchWithAuth_no_refresh_credential_keeps_store scripted dev_env
             stats_url get_options (world_of jar_AAA [Delivered resp_401])
             [] resp_401); [|reflexivity..].
  repeat split; reflexivity.
Defined.




(** C1 (amended).  A 401 on the first request, with renewal enabled, a
    refresh credential in the store and a renewal call that succeeds:
    exactly three requests go out, in this order: the original request,
    one renewal call carrying only the refresh credential, one retry of
    the original request.  The retry is built from the store as the
    renewal response left it, under the caller's own headers: when the
    renewal response assigns an access credential [v] and the caller
    passed no [Cookie] header, the retry carries
    [access_token=v; refresh_token=...] and not the stale credential; when
    the response assigns no access credential the one in the store is sent
    again, and a [Cookie] header of the caller is sent as it is.  The
    response of the retry is returned as it is, whatever its status (a
    second 401 included); no second renewal is issued and the store keeps
    what the renewal response assigned. *)
Theorem fetchWithAuth_renews_once_then_retries_once
    {NetState} (srv : NetState -> Request -> NetState * FetchResult)
    (env : Env) (url : string) (options : FetchWithAuthOptions)
    (w : @World NetState) (n1 n2 n3 : NetState) (r1 r2 r3 : Response)
    (rt : string) :
  let fo := fetchOptions options in
  let content_type : gmap string string :=
    {["Content-Type" := "application/json"]} in
  let cookie_of (access : option string) (refresh : string) : string :=
    match access with
    | Some (String c s) =>
        "access_token=" +:+ String c s +:+ "; refresh_token=" +:+ refresh
    | _ => "refresh_token=" +:+ refresh
    end in
  let send (cookie : string) : Request :=
    {| req_url := url; req_method := method fo; req_body := body fo;
       req_headers :=
         default ∅ (headers fo) ∪ <["Cookie" := cookie]> content_type |} in
  let renewal : Request :=
    {| req_url :=
         match NEXT_PUBLIC_API_URL env with
         | Some u => u
         | None => "undefined"
         end +:+ "/api/auth/refresh";
       req_method := Some "POST";
       req_body := None;
       req_headers := <["Cookie" := "refresh_token=" +:+ rt]> content_type |} in
  let stale := token "access_token" (jar w) in
  let access' :=
    match last_match accessTokenMatch (setCookie r2) with
    | Some v => Some v
    | None => stale
    end in
  let refresh' :=
    match last_match refreshTokenMatch (setCookie r2) with
    | Some v => v
    | None => rt
    end in
  let first := send (cookie_of stale rt) in
  let retry := send (cookie_of access' refresh') in
  let out := fetchWithAuth srv env url options w in
  token "refresh_token" (jar w) = Some rt ->
  rt <> "" ->
  skipRefresh options <> Some true ->
  srv (net w) first = (n1, Delivered r1) ->
  status r1 = 401 ->
  srv n1 renewal = (n2, Delivered r2) ->
  200 <= status r2 <= 299 ->
  srv n2 retry = (n3, Delivered r3) ->
  out =
    (Returned r3,
     mkWorld (ingest env (setCookie r2) (jar w)) n3
       (wire w ++ [first; renewal; retry]) (console w)) /\
  token "access_token" (jar (world_after out)) = access' /\
  token "refresh_token" (jar (world_after out)) = Some refresh' /\
  (forall v,
     last_match accessTokenMatch (setCookie r2) = Some v ->
     default ∅ (headers fo) !! "Cookie" = None ->
     req_headers retry !! "Cookie" =
       Some ("access_token=" +:+ v +:+ "; refresh_token=" +:+ refresh')).
Proof.
  intros fo content_type cookie_of send renewal stale access' refresh'
    first retry out Hrt Hne Hskip H1 Hs H2 Hok H3.
  set (renewed := ingest env (setCookie r2) (jar w)).
  assert (Ha' : token "access_token" renewed = access').
  { unfold renewed. now rewrite ingest_token_access. }
  assert (Hr' : token "refresh_token" renewed = Some refresh').
  { unfold renewed, refresh'. rewrite ingest_token_refresh, Hrt.
    now destruct (last_match refreshTokenMatch (setCookie r2)). }
  assert (Hne' : refresh' <> "").
  { unfold refresh'.
    destruct (last_match refreshTokenMatch (setCookie r2)) as [x|] eqn:E;
      [|exact Hne].
    apply truthy_nonempty. eapply last_match_truthy. exact E. }
  assert (E1 : first = original_request url fo (authHeaders (jar w))).
  { symmetry. now apply original_request_written_out. }
  assert (ER : renewal = refresh_request env (token "refresh_token" (jar w))).
  { now rewrite Hrt. }
  assert (E3 : retry = original_request url fo (authHeaders renewed)).
  { symmetry. unfold retry, send, cookie_of. rewrite <- Ha'.
    now apply original_request_written_out. }
  assert (Hout : out =
            (Returned r3,
             mkWorld renewed n3 (wire w ++ [first; renewal; retry])
               (console w))).
  { unfold out. rewrite E1, ER, E3 in *.
    apply (path_retry_delivered srv env url options w n1 r1 n2 r2 n3 r3);
      try assumption.
    - now apply refresh_enabled_iff.
    - rewrite Hrt. now apply truthy_nonempty.
    - now apply ok_true_iff. }
  split; [exact Hout|]. rewrite Hout. cbn [world_after snd jar].
  split; [exact Ha'|]. split; [exact Hr'|].
  intros v Hv Hcaller.
  unfold retry, send. cbn [req_headers].
  rewrite lookup_union, Hcaller, lookup_insert_eq.
  unfold access', cookie_of. rewrite Hv.
  pose proof (last_match_truthy _ _ _ Hv) as Htv.
  destruct v; [discriminate|]. reflexivity.
Qed.

Lemma fetchWithAuth_renews_once_then_retries_once_witness :
  fetchWithAuth scripted dev_env stats_url get_options
    (world_of jar_AAA_BBB
       [Delivered resp_401; Delivered resp_renewed; Delivered resp_401]) =
  (Returned resp_401,
   mkWorld
     (<["refresh_token" := mkCookie "DDD" (Some (refresh_options dev_env))]>
        (<["access_token" := mkCookie "CCC" (Some (access_options dev_env))]>
           jar_AAA_BBB))
     []
     [{| req_url := "http://localhost:3001/api/user/stats";
         req_method := Some "GET";
         req_body := None;
         req_headers := <["Cookie" := "access_token=AAA; refresh_token=BBB"]>
                          {["Content-Type" := "application/json"]} |};
      {| req_url := "http://localhost:3001/api/auth/refresh";
         req_method := Some "POST";
         req_body := None;
         req_headers := <["Cookie" := "refresh_token=BBB"]>
                          {["Content-Type" := "application/json"]} |};
      {| req_url := "http://localhost:3001/api/user/stats";
         req_method := Some "GET";
         req_body := None;
         req_headers := <["Cookie" := "access_token=CCC; refresh_token=DDD"]>
                          {["Content-Type" := "application/json"]} |}]
     []).
Proof.
  refine (proj1 (fetchWithAuth_renews_once_then_retries_once scripted dev_env
                   stats_url get_options
                   (world_of jar_AAA_BBB
                      [Delivered resp_401; Delivered resp_renewed;
                       Delivered resp_401])
                   [Delivered resp_renewed; Delivered resp_401]
                   [Delivered resp_401] []
                   resp_401 resp_renewed resp_401 "BBB"
                   _ _ _ _ _ _ _ _)).
  - reflexivity.
  - discriminate.
  - discriminate.
  - reflexivity.
  - reflexivity.
  - reflexivity.
  - simpl. lia.
  - reflexivity.
Defined.

(** C1 as stated fails in two ways, with Access=AAA and Refresh=BBB stored
    and a 401 on the first request.  When the caller passes its own
    [Cookie] header and the renewal issues Access=CCC, Refresh=DDD, the
    store holds CCC afterwards but the retry carries the caller's
    [access_token=STALE].  When the renewal response assigns only a
    refresh credential, the retry carries the stale access credential
    [AAA]. *)
Lemma retry_without_the_renewed_access_counterexample :
  let own_cookie :=
    {| skipRefresh := None;
       fetchOptions :=
         {| method := Some "GET"; body := None;
            headers := Some {["Cookie" := "access_token=STALE"]} |} |} in
  let refresh_only :=
    {| status := 200; statusText := "OK"; setCookie := [refresh_DDD];
       resp_body := "" |} in
  let out1 := fetchWithAuth scripted dev_env stats_url own_cookie
                (world_of jar_AAA_BBB
                   [Delivered resp_401; Delivered resp_renewed;
                    Delivered resp_stats]) in
  let out2 := fetchWithAuth scripted dev_env stats_url get_options
                (world_of jar_AAA_BBB
                   [Delivered resp_401; Delivered refresh_only;
                    Delivered resp_stats]) in
  (result_of out1 = Returned resp_stats /\
   token "access_token" (jar (world_after out1)) = Some "CCC" /\
   last (wire (world_after out1)) =
     Some {| req_url := "http://localhost:3001/api/user/stats";
             req_method := Some "GET";
             req_body := None;
             req_headers := <["Cookie" := "access_token=STALE"]>
                              {["Content-Type" := "application/json"]} |}) /\
  (result_of out2 = Returned resp_stats /\
   length (wire (world_after out2)) = 3%nat /\
   last (wire (world_after out2)) =
     Some {| req_url := "http://localhost:3001/api/user/stats";
             req_method := Some "GET";
             req_body := None;
             req_headers := <["Cookie" := "access_token=AAA; refresh_token=DDD"]>
                              {["Content-Type" := "application/json"]} |}).
Proof.
  cbv zeta. repeat split; reflexivity.
Qed.

(** C2 (amended).  When the renewal round trip fails, no retry of the
    original request is issued (the requests are the original one and the
    renewal call) and both stored credentials are cleared: each credential
    cookie is overwritten by the store's deletion entry (empty value,
    expired at the epoch), so the readers find the empty string and
    [getAuthHeaders] sends no [Cookie].  A non-success status makes the
    call throw ["Session expired. Please login again."]; a network fault
    of the renewal call is rethrown as it is. *)
Theorem fetchWithAuth_failed_renewal_clears_store
    {NetState} (srv : NetState -> Request -> NetState * FetchResult)
    (env : Env) (url : string) (options : FetchWithAuthOptions)
    (w : @World NetState) (n1 n2 : NetState) (r1 : Response)
    (res2 : FetchResult) (rt : string) :
  let fo := fetchOptions options in
  let content_type : gmap string string :=
    {["Content-Type" := "application/json"]} in
  let first : Request :=
    {| req_url := url; req_method := method fo; req_body := body fo;
       req_headers :=
         default ∅ (headers fo) ∪
         <["Cookie" :=
             match token "access_token" (jar w) with
             | Some (String c s) =>
                 "access_token=" +:+ String c s +:+ "; refresh_token=" +:+ rt
             | _ => "refresh_token=" +:+ rt
             end]> content_type |} in
  let renewal : Request :=
    {| req_url :=
         match NEXT_PUBLIC_API_URL env with
         | Some u => u
         | None => "undefined"
         end +:+ "/api/auth/refresh";
       req_method := Some "POST";
       req_body := None;
       req_headers := <["Cookie" := "refresh_token=" +:+ rt]> content_type |} in
  let gone : Cookie :=
    {| cookie_value := ""; cookie_options := None; cookie_expires := Some 0 |} in
  let out := fetchWithAuth srv env url options w in
  token "refresh_token" (jar w) = Some rt ->
  rt <> "" ->
  skipRefresh options <> Some true ->
  srv (net w) first = (n1, Delivered r1) ->
  status r1 = 401 ->
  srv n1 renewal = (n2, res2) ->
  match res2 with
  | Delivered r2 => ~ (200 <= status r2 <= 299)
  | Faulted _ => True
  end ->
  out =
    (Thrown match res2 with
            | Delivered _ => NewError "Session expired. Please login again."
            | Faulted msg => FetchFault msg
            end,
     mkWorld (<["refresh_token" := gone]> (<["access_token" := gone]> (jar w)))
       n2 (wire w ++ [first; renewal]) (console w)) /\
  getAuthToken (world_after out) = (Returned (Some ""), world_after out) /\
  getRefreshToken (world_after out) = (Returned (Some ""), world_after out) /\
  getAuthHeaders (world_after out) = (Returned content_type, world_after out).
Proof.
  intros fo content_type first renewal gone out Hrt Hne Hskip H1 Hs H2 Hfail.
  assert (E1 : first = original_request url fo (authHeaders (jar w))).
  { symmetry. now apply original_request_written_out. }
  assert (ER : renewal = refresh_request env (token "refresh_token" (jar w))).
  { now rewrite Hrt. }
  assert (Hout : out =
            (Thrown match res2 with
                    | Delivered _ => session_expired
                    | Faulted msg => FetchFault msg
                    end,
             mkWorld (cleared (jar w)) n2 (wire w ++ [first; renewal])
               (console w))).
  { unfold out. rewrite E1, ER in *.
    apply (path_renewal_failed srv env url options w n1 n2 r1 res2);
      try assumption.
    - now apply refresh_enabled_iff.
    - rewrite Hrt. now apply truthy_nonempty.
    - destruct res2 as [r2|msg]; [|exact I]. now apply ok_false_iff. }
  split; [exact Hout|].
  apply (readers_after_clear (world_after out) (jar w)). now rewrite Hout.
Qed.

Lemma fetchWithAuth_failed_renewal_clears_store_witness :
  fetchWithAuth scripted dev_env stats_url get_options
    (world_of jar_AAA_BBB [Delivered resp_401; Delivered resp_401]) =
  (Thrown (NewError "Session expired. Please login again."),
   mkWorld
     (<["refresh_token" := {| cookie_value := ""; cookie_options := None;
                              cookie_expires := Some 0 |}]>
        (<["access_token" := {| cookie_value := ""; cookie_options := None;
                                cookie_expires := Some 0 |}]> jar_AAA_BBB))
     []
     [{| req_url := "http://localhost:3001/api/user/stats";
         req_method := Some "GET";
         req_body := None;
         req_headers := <["Cookie" := "access_token=AAA; refresh_token=BBB"]>
                          {["Content-Type" := "application/json"]} |};
      {| req_url := "http://localhost:3001/api/auth/refresh";
         req_method := Some "POST";
         req_body := None;
         req_headers := <["Cookie" := "refresh_token=BBB"]>
                          {["Content-Type" := "application/json"]} |}]
     []).
Proof.
  refine (proj1 (fetchWithAuth_failed_renewal_clears_store scripted dev_env
                   stats_url get_options
                   (world_of jar_AAA_BBB [Delivered resp_401; Delivered resp_401])
                   [Delivered resp_401] [] resp_401 (Delivered resp_401) "BBB"
                   _ _ _ _ _ _ _)).
  - reflexivity.
  - discriminate.
  - discriminate.
  - reflexivity.
  - reflexivity.
  - reflexivity.
  - simpl. lia.
Defined.

(** C2 as stated fails when the renewal call faults: with Access=AAA and
    Refresh=BBB, a 401 on the first request and an unreachable refresh
    endpoint, the store is cleared and no retry goes out, but what the call
    throws is the fault of [fetch], not the session-expired error. *)
Lemma renewal_fault_is_rethrown_counterexample :
  let w := world_of jar_AAA_BBB [Delivered resp_401; Faulted "fetch failed"] in
  let out := fetchWithAuth scripted dev_env stats_url get_options w in
  scripted [Faulted "fetch failed"] (refresh_request dev_env (Some "BBB"))
    = ([], Faulted "fetch failed") /\
  wire (world_after out) =
    [original_request stats_url (fetchOptions get_options) (authHeaders jar_AAA_BBB);
     refresh_request dev_env (Some "BBB")] /\
  result_of out = Thrown (FetchFault "fetch failed") /\
  result_of out <> Thrown (NewError "Session expired. Please login again.").
Proof.
  cbv zeta.
  assert (Hres : result_of
            (fetchWithAuth scripted dev_env stats_url get_options
               (world_of jar_AAA_BBB [Delivered resp_401; Faulted "fetch failed"]))
          = Thrown (FetchFault "fetch failed")) by reflexivity.
  split; [reflexivity|]. split; [reflexivity|]. split; [exact Hres|].
  rewrite Hres. discriminate.
Qed.

(** C3 (amended).  After a 401 with renewal enabled: when the store holds a
    refresh credential and the renewal round trip fails (non-success status
    or fault), the call throws, and by then both stored credentials are
    cleared (each credential cookie is the store's deletion entry: empty
    value, expired at the epoch; [getAuthHeaders] sends no [Cookie]); when
    the store holds no refresh credential (no cookie, or an empty one), the
    call throws ["Unauthorized: No refresh token available"] and the store
    is left exactly as it was. *)
Theorem fetchWithAuth_failures_and_store
    {NetState} (srv : NetState -> Request -> NetState * FetchResult)
    (env : Env) (url : string) (options : FetchWithAuthOptions)
    (w : @World NetState) (n1 : NetState) (r1 : Response) :
  let fo := fetchOptions options in
  let content_type : gmap string string :=
    {["Content-Type" := "application/json"]} in
  let first : Request :=
    {| req_url := url; req_method := method fo; req_body := body fo;
       req_headers :=
         default ∅ (headers fo) ∪
         match token "access_token" (jar w), token "refresh_token" (jar w) with
         | Some (String c s), Some (String c' s') =>
             <["Cookie" := "access_token=" +:+ String c s +:+
                           "; refresh_token=" +:+ String c' s']> content_type
         | Some (String c s), _ =>
             <["Cookie" := "access_token=" +:+ String c s]> content_type
         | _, Some (String c' s') =>
             <["Cookie" := "refresh_token=" +:+ String c' s']> content_type
         | _, _ => content_type
         end |} in
  let renewal (rt : string) : Request :=
    {| req_url :=
         match NEXT_PUBLIC_API_URL env with
         | Some u => u
         | None => "undefined"
         end +:+ "/api/auth/refresh";
       req_method := Some "POST";
       req_body := None;
       req_headers := <["Cookie" := "refresh_token=" +:+ rt]> content_type |} in
  let gone : Cookie :=
    {| cookie_value := ""; cookie_options := None; cookie_expires := Some 0 |} in
  let out := fetchWithAuth srv env url options w in
  let w' := world_after out in
  skipRefresh options <> Some true ->
  srv (net w) first = (n1, Delivered r1) ->
  status r1 = 401 ->
  (forall rt,
     token "refresh_token" (jar w) = Some rt -> rt <> "" ->
     match snd (srv n1 (renewal rt)) with
     | Delivered r2 => ~ (200 <= status r2 <= 299)
     | Faulted _ => True
     end ->
     (exists e, result_of out = Thrown e) /\
     jar w' !! "access_token" = Some gone /\
     jar w' !! "refresh_token" = Some gone /\
     getAuthHeaders w' = (Returned content_type, w')) /\
  (token "refresh_token" (jar w) = None \/
   token "refresh_token" (jar w) = Some "" ->
   result_of out = Thrown (NewError "Unauthorized: No refresh token available") /\
   jar w' = jar w).
Proof.
  intros fo content_type first renewal gone out w' Hskip H1 Hs.
  assert (E1 : first = original_request url fo (authHeaders (jar w))).
  { unfold first, original_request, spread_headers.
    now rewrite authHeaders_written_out. }
  rewrite E1 in H1. apply refresh_enabled_iff in Hskip.
  split.
  - intros rt Hrt Hne Hfail.
    assert (ER : renewal rt = refresh_request env (token "refresh_token" (jar w))).
    { now rewrite Hrt. }
    rewrite ER in Hfail.
    destruct (srv n1 (refresh_request env (token "refresh_token" (jar w))))
      as [n2 res2] eqn:H2. cbn [snd] in Hfail.
    assert (Hout : out =
              (Thrown match res2 with
                      | Delivered _ => session_expired
                      | Faulted msg => FetchFault msg
                      end,
               mkWorld (cleared (jar w)) n2
                 (wire w ++ [original_request url fo (authHeaders (jar w));
                             refresh_request env (token "refresh_token" (jar w))])
                 (console w))).
    { apply (path_renewal_failed srv env url options w n1 n2 r1 res2);
        try assumption.
      - rewrite Hrt. now apply truthy_nonempty.
      - destruct res2 as [r2|msg]; [|exact I]. now apply ok_false_iff. }
    assert (Hjar : jar w' = cleared (jar w)).
    { unfold w'. now rewrite Hout. }
    split; [unfold result_of; rewrite Hout; eauto|].
    rewrite Hjar, cleared_access, cleared_refresh.
    split; [reflexivity|]. split; [reflexivity|].
    now apply (readers_after_clear w' (jar w)).
  - intros Hnone. unfold w', out.
    rewrite (path_no_refresh_token srv env url options w n1 r1);
      try assumption.
    + split; reflexivity.
    + now apply truthy_false_iff.
Qed.

Lemma fetchWithAuth_failures_and_store_witness :
  let failed := fetchWithAuth scripted dev_env stats_url get_options
                  (world_of jar_AAA_BBB [Delivered resp_401; Delivered resp_500]) in
  let refused := fetchWithAuth scripted dev_env stats_url get_options
                   (world_of jar_AAA [Delivered resp_401]) in
  (jar (world_after failed) !! "access_token" =
     Some {| cookie_value := ""; cookie_options := None;
             cookie_expires := Some 0 |} /\
   jar (world_after failed) !! "refresh_token" =
     Some {| cookie_value := ""; cookie_options := None;
             cookie_expires := Some 0 |}) /\
  (result_of refused =
     Thrown (NewError "Unauthorized: No refresh token available") /\
   jar (world_after refused) = jar_AAA).
Proof.
  cbv zeta. split.
  - destruct (fetchWithAuth_failures_and_store scripted dev_env stats_url
                get_options
                (world_of jar_AAA_BBB [Delivered resp_401; Delivered resp_500])
                [Delivered resp_500] resp_401) as [Hfail _].
    + discriminate.
    + reflexivity.
    + reflexivity.
    + destruct (Hfail "BBB") as (_ & Ha & Hr & _).
      * reflexivity.
      * discriminate.
      * simpl. lia.
      * split; assumption.
  - destruct (fetchWithAuth_failures_and_store scripted dev_env stats_url
                get_options (world_of jar_AAA [Delivered resp_401]) []
                resp_401) as [_ Hkeep].
    + discriminate.
    + reflexivity.
    + reflexivity.
    + apply Hkeep. left. reflexivity.
Defined.

(** C3 as stated fails for the missing refresh credential: with Access=AAA
    in the store and no refresh credential, a 401 makes the call throw
    ["Unauthorized: No refresh token available"] while the access
    credential is still stored. *)
Lemma no_refresh_credential_keeps_access_counterexample :
  let out := fetchWithAuth scripted dev_env stats_url get_options
               (world_of jar_AAA [Delivered resp_401]) in
  result_of out = Thrown (NewError "Unauthorized: No refresh token available") /\
  jar (world_after out) !! "access_token" = Some (mkCookie "AAA" None) /\
  ~ (jar (world_after out) !! "access_token" = None /\
     jar (world_after out) !! "refresh_token" = None).
Proof.
  cbv zeta.
  assert (Ha : jar (world_after
                 (fetchWithAuth scripted dev_env stats_url get_options
                    (world_of jar_AAA [Delivered resp_401])))
               !! "access_token" = Some (mkCookie "AAA" None)) by reflexivity.
  split; [reflexivity|]. split; [exact Ha|].
  rewrite Ha. intros [Hnone _]. discriminate.
Qed.

(** ** Logout *)




(** ** Further properties of the credential authority *)

(** X1.  [extractAndSetCookies] returns normally for every sequence of
    strings (the empty one included) and writes nothing but the two
    credential cookies: every other cookie of the store, the remote
    service, the requests issued and the console are as before. *)
Theorem extractAndSetCookies_only_writes_credentials
    {NetState} (env : Env) (hs : list string) (w : @World NetState) :
  exists j' : gmap string Cookie,
    extractAndSetCookies env hs w = (Returned tt, with_jar j' w) /\
    (forall k, k <> "access_token" -> k <> "refresh_token" ->
               j' !! k = jar w !! k) /\
    (hs = [] -> j' = jar w).
Proof.
  exists (ingest env hs (jar w)). split; [apply extractAndSetCookies_run|].
  split.
  - intros k Ha Hr. now apply ingest_other.
  - now intros ->.
Qed.


(** X3.  Reading a directive back: for a value that is not empty and holds
    no [';'], the access pattern captures exactly that value from
    [access_token=<value>] and from [access_token=<value>;<attributes>],
    and the refresh pattern does the same for [refresh_token=...]. *)
Theorem patterns_capture_the_assigned_value (v attrs : string) :
  v <> "" ->
  no_semicolon v = true ->
  accessTokenMatch ("access_token=" +:+ v) = Some v /\
  accessTokenMatch ("access_token=" +:+ v +:+ String ";" attrs) = Some v /\
  refreshTokenMatch ("refresh_token=" +:+ v) = Some v /\
  refreshTokenMatch ("refresh_token=" +:+ v +:+ String ";" attrs) = Some v.
Proof.
  intros Hne Hv.
  destruct (take_value_stops v attrs Hv) as [H1 H2].
  assert (Hhere : forall lit,
            match_here lit (lit +:+ v) = Some v /\
            match_here lit (lit +:+ v +:+ String ";" attrs) = Some v).
  { intros lit. unfold match_here. rewrite !strip_prefix_app, H1, H2.
    destruct v; [congruence|]. split; reflexivity. }
  unfold accessTokenMatch, refreshTokenMatch.
  repeat split; apply match_from_at_start, Hhere.
Qed.

Lemma patterns_capture_the_assigned_value_witness :
  accessTokenMatch ("access_token=" +:+ "CCC" +:+ String ";" " Path=/; HttpOnly")
    = Some "CCC".
Proof.
  apply (patterns_capture_the_assigned_value "CCC" " Path=/; HttpOnly").
  - discriminate.
  - reflexivity.
Defined.

(** X4.  What [extractAndSetCookies] stores is what the readers hand out:
    after a sequence whose last access assignment is [a] and whose last
    refresh assignment is [r], [requireAuth] returns [a] and
    [getAuthHeaders] sends [access_token=a; refresh_token=r]. *)
Theorem stored_credentials_reach_the_readers
    {NetState} (env : Env) (hs : list string) (w : @World NetState)
    (a r : string) :
  last_match accessTokenMatch hs = Some a ->
  last_match refreshTokenMatch hs = Some r ->
  let w' := world_after (extractAndSetCookies env hs w) in
  requireAuth w' = (Returned a, w') /\
  exists h : gmap string string,
    getAuthHeaders w' = (Returned h, w') /\
    h !! "Cookie" = Some ("access_token=" +:+ a +:+ "; refresh_token=" +:+ r).
Proof.
  intros Ha Hr w'.
  assert (Hjar : jar w' = ingest env hs (jar w)).
  { unfold w', world_after. now rewrite extractAndSetCookies_run. }
  assert (Hta : token "access_token" (jar w') = Some a).
  { unfold token. now rewrite Hjar, ingest_access, Ha. }
  assert (Htr : token "refresh_token" (jar w') = Some r).
  { unfold token. now rewrite Hjar, ingest_refresh, Hr. }
  pose proof (last_match_truthy _ _ _ Ha) as Hva.
  pose proof (last_match_truthy _ _ _ Hr) as Hvr.
  split.
  - rewrite requireAuth_run, Hta, Hva. reflexivity.
  - exists (authHeaders (jar w')). split; [apply getAuthHeaders_run|].
    rewrite authHeaders_cookie, Hta, Htr. unfold cookie_entry.
    rewrite Hva, Hvr. reflexivity.
Qed.

Lemma stored_credentials_reach_the_readers_witness :
  result_of
    (requireAuth
       (world_after
          (extractAndSetCookies dev_env [access_CCC; refresh_DDD]
             (world_of jar_AAA []))))
  = Returned "CCC".
Proof.
  destruct (stored_credentials_reach_the_readers dev_env
              [access_CCC; refresh_DDD] (world_of jar_AAA []) "CCC" "DDD")
    as [Hreq _]; [reflexivity..|].
  now rewrite Hreq.
Defined.

(** X5.  [clearAuthCookies] overwrites the two credential cookies with the
    store's deletion entry (empty value, expired at the epoch), creating
    the entries when they were missing; every other cookie, the remote
    service, the requests and the console are left alone, and the action
    is idempotent: run on its own result it changes nothing. *)
Theorem clearAuthCookies_idempotent_and_local
    {NetState} (w : @World NetState) :
  let gone : Cookie :=
    {| cookie_value := ""; cookie_options := None; cookie_expires := Some 0 |} in
  let w1 := world_after (clearAuthCookies w) in
  clearAuthCookies w =
    (Returned tt,
     mkWorld (<["refresh_token" := gone]> (<["access_token" := gone]> (jar w)))
       (net w) (wire w) (console w)) /\
  (forall k, k <> "access_token" -> k <> "refresh_token" ->
             jar w1 !! k = jar w !! k) /\
  clearAuthCookies w1 = (Returned tt, w1).
Proof.
  intros gone w1. unfold w1. rewrite !clearAuthCookies_run.
  cbn [world_after snd jar net wire console with_jar].
  split; [reflexivity|]. split.
  - intros k Ha Hr. now apply cleared_other.
  - now rewrite cleared_idempotent.
Qed.

(** X6.  After [clearAuthCookies] the readers find no credential:
    [getAuthToken] and [getRefreshToken] return the empty string (the
    cookies are still there, with an empty value), [requireAuth] throws
    ["No authentication token found"] and [getAuthHeaders] returns exactly
    the [Content-Type] entry. *)
Theorem cleared_store_has_no_credentials
    {NetState} (w : @World NetState) :
  let w1 := world_after (clearAuthCookies w) in
  getAuthToken w1 = (Returned (Some ""), w1) /\
  getRefreshToken w1 = (Returned (Some ""), w1) /\
  requireAuth w1 = (Thrown (NewError "No authentication token found"), w1) /\
  getAuthHeaders w1 =
    (Returned {["Content-Type" := "application/json"]}, w1).
Proof.
  intros w1.
  assert (Hjar : jar w1 = cleared (jar w)).
  { unfold w1. now rewrite clearAuthCookies_run. }
  destruct (readers_after_clear w1 (jar w) Hjar) as (Ha & Hr & Hh).
  split; [exact Ha|]. split; [exact Hr|]. split; [|exact Hh].
  rewrite requireAuth_run, Hjar. now destruct (token_cleared (jar w)) as [-> _].
Qed.

(** ** Further properties of [fetchWithAuth] *)

(** X7.  When the renewal succeeded but the retry of the original request
    faults, the handler of the [try] block clears the store: the
    credential cookies just renewed are overwritten by the store's deletion
    entry (empty value, expired at the epoch), the fault is rethrown, and
    three requests were issued. *)
Theorem fetchWithAuth_retry_fault_clears_renewed_store
    {NetState} (srv : NetState -> Request -> NetState * FetchResult)
    (env : Env) (url : string) (options : FetchWithAuthOptions)
    (w : @World NetState) (n1 n2 n3 : NetState) (r1 r2 : Response)
    (msg : string) :
  let fo := fetchOptions options in
  let req1 := original_request url fo (authHeaders (jar w)) in
  let reqR := refresh_request env (token "refresh_token" (jar w)) in
  let renewed := ingest env (setCookie r2) (jar w) in
  let retry := original_request url fo (authHeaders renewed) in
  let out := fetchWithAuth srv env url options w in
  srv (net w) req1 = (n1, Delivered r1) ->
  status r1 = 401 ->
  refresh_enabled options = true ->
  truthy (token "refresh_token" (jar w)) = true ->
  srv n1 reqR = (n2, Delivered r2) ->
  ok r2 = true ->
  srv n2 retry = (n3, Faulted msg) ->
  result_of out = Thrown (FetchFault msg) /\
  jar (world_after out) !! "access_token" =
    Some {| cookie_value := ""; cookie_options := None;
            cookie_expires := Some 0 |} /\
  jar (world_after out) !! "refresh_token" =
    Some {| cookie_value := ""; cookie_options := None;
            cookie_expires := Some 0 |} /\
  wire (world_after out) = (wire w ++ [req1; reqR; retry])%list.
Proof.
  intros fo req1 reqR renewed retry out H1 Hs He Ht H2 Hok H3. unfold out.
  rewrite (path_retry_faulted srv env url options w n1 r1 n2 r2 n3 msg)
    by assumption.
  cbn [result_of world_after fst snd jar wire].
  auto using cleared_access, cleared_refresh.
Qed.

Lemma fetchWithAuth_retry_fault_clears_renewed_store_witness :
  let out := fetchWithAuth scripted dev_env stats_url get_options
               (world_of jar_AAA_BBB
                  [Delivered resp_401; Delivered resp_renewed]) in
  result_of out = Thrown (FetchFault "fetch failed") /\
  jar (world_after out) !! "access_token" =
    Some {| cookie_value := ""; cookie_options := None;
            cookie_expires := Some 0 |} /\
  jar (world_after out) !! "refresh_token" =
    Some {| cookie_value := ""; cookie_options := None;
            cookie_expires := Some 0 |}.
Proof.
  cbv zeta.
  destruct (fetchWithAuth_retry_fault_clears_renewed_store scripted dev_env
              stats_url get_options
              (world_of jar_AAA_BBB
                 [Delivered resp_401; Delivered resp_renewed])
              [Delivered resp_renewed] [] [] resp_401 resp_renewed
              "fetch failed") as (Hres & Ha & Hr & _); [reflexivity..|].
  auto.
Defined.

(** X8.  A fault of the first request is thrown to the caller as it is: no
    renewal call is made, and the store is not touched (the first [fetch]
    is outside the [try] block). *)
Theorem fetchWithAuth_initial_fault_propagates
    {NetState} (srv : NetState -> Request -> NetState * FetchResult)
    (env : Env) (url : string) (options : FetchWithAuthOptions)
    (w : @World NetState) (n1 : NetState) (msg : string) :
  let req1 := original_request url (fetchOptions options) (authHeaders (jar w)) in
  srv (net w) req1 = (n1, Faulted msg) ->
  fetchWithAuth srv env url options w =
    (Thrown (FetchFault msg),
     mkWorld (jar w) n1 (wire w ++ [req1]) (console w)).
Proof. intros req1. apply path_initial_fault. Qed.

Lemma fetchWithAuth_initial_fault_propagates_witness :
  let out := fetchWithAuth scripted dev_env stats_url get_options
               (world_of jar_AAA_BBB []) in
  result_of out = Thrown (FetchFault "fetch failed") /\
  jar (world_after out) = jar_AAA_BBB.
Proof.
  cbv zeta.
  rewrite (fetchWithAuth_initial_fault_propagates scripted dev_env stats_url
             get_options (world_of jar_AAA_BBB []) [] "fetch failed");
    [|reflexivity].
  split; reflexivity.
Defined.

(** X9.  Whatever the remote service does, one call of [fetchWithAuth]
    issues the original request and then at most two more: nothing, or the
    renewal call alone, or the renewal call followed by one request to the
    same URL with the caller's method and body.  It writes nothing to the
    console and touches no cookie other than the two credential cookies. *)
Theorem fetchWithAuth_issues_at_most_three_requests
    {NetState} (srv : NetState -> Request -> NetState * FetchResult)
    (env : Env) (url : string) (options : FetchWithAuthOptions)
    (w : @World NetState) :
  let fo := fetchOptions options in
  let req1 := original_request url fo (authHeaders (jar w)) in
  let reqR := refresh_request env (token "refresh_token" (jar w)) in
  let w' := world_after (fetchWithAuth srv env url options w) in
  (exists extra,
     wire w' = (wire w ++ req1 :: extra)%list /\
     (extra = [] \/ extra = [reqR] \/
      exists retry, extra = [reqR; retry] /\ req_url retry = url /\
        req_method retry = method fo /\ req_body retry = body fo)) /\
  console w' = console w /\
  (forall k, k <> "access_token" -> k <> "refresh_token" ->
             jar w' !! k = jar w !! k).
Proof.
  intros fo req1 reqR w'. unfold w'.
  destruct (fetchWithAuth_cases srv env url options w)
    as [(n1 & msg & ->) | [(n1 & r1 & _ & ->) | [(n1 & ->) |
        [(n2 & e & _ & ->) | [(n3 & r2 & r3 & ->) | (n3 & r2 & msg & ->)]]]]];
    cbn [world_after snd jar wire console].
  - split; [exists []; auto|]. auto.
  - split; [exists []; auto|]. auto.
  - split; [exists []; auto|]. auto.
  - split; [eexists [_]; split; [reflexivity|]; right; left; reflexivity|].
    split; [reflexivity|]. intros k Ha Hr. now apply cleared_other.
  - split.
    + eexists [_; _]. split; [reflexivity|]. right. right.
      eexists. split; [reflexivity|]. repeat split.
    + split; [reflexivity|]. intros k Ha Hr. now apply ingest_other.
  - split.
    + eexists [_; _]. split; [reflexivity|]. right. right.
      eexists. split; [reflexivity|]. repeat split.
    + split; [reflexivity|]. intros k Ha Hr.
      rewrite cleared_other by assumption. now apply ingest_other.
Qed.

(** X10.  How a call ends tells what happened to the store.  If
    [fetchWithAuth] throws, either only the first request went out and the
    store is unchanged (the first request faulted, or there was no refresh
    credential), or both credential cookies have been overwritten by the
    store's deletion entry (empty value, expired at the epoch).  If it returns
    after a single request, that response was not a 401 or renewal was
    switched off, and the store is unchanged; otherwise exactly three
    requests went out, so a 401 handed to a caller that left renewal on is
    always the answer to the retry. *)
Theorem fetchWithAuth_outcome_and_store
    {NetState} (srv : NetState -> Request -> NetState * FetchResult)
    (env : Env) (url : string) (options : FetchWithAuthOptions)
    (w : @World NetState) :
  let req1 := original_request url (fetchOptions options) (authHeaders (jar w)) in
  let out := fetchWithAuth srv env url options w in
  let w' := world_after out in
  match result_of out with
  | Thrown e =>
      (jar w' = jar w /\ wire w' = (wire w ++ [req1])%list /\
       (e = no_refresh_credential \/ exists msg, e = FetchFault msg)) \/
      (jar w' !! "access_token" =
         Some {| cookie_value := ""; cookie_options := None;
                 cookie_expires := Some 0 |} /\
       jar w' !! "refresh_token" =
         Some {| cookie_value := ""; cookie_options := None;
                 cookie_expires := Some 0 |} /\
       (e = session_expired \/ exists msg, e = FetchFault msg))
  | Returned r =>
      (jar w' = jar w /\ wire w' = (wire w ++ [req1])%list /\
       (status r =? 401) && refresh_enabled options = false) \/
      length (wire w') = (length (wire w) + 3)%nat
  end.
Proof.
  intros req1 out w'. unfold w', out.
  destruct (fetchWithAuth_cases srv env url options w)
    as [(n1 & msg & ->) | [(n1 & r1 & Hc & ->) | [(n1 & ->) |
        [(n2 & e & He & ->) | [(n3 & r2 & r3 & ->) | (n3 & r2 & msg & ->)]]]]];
    cbn [result_of world_after fst snd jar wire console].
  - left. eauto.
  - left. auto.
  - left. auto.
  - right. auto using cleared_access, cleared_refresh.
  - right. rewrite length_app. reflexivity.
  - right. split; [apply cleared_access|]. split; [apply cleared_refresh|].
    eauto.
Qed.

(** X11.  Once a renewal has failed, the next call does not try again: run
    on the world the failed call left, a call that meets a 401 sends no
    credential, throws ["Unauthorized: No refresh token available"] and
    issues no renewal call. *)
Theorem fetchWithAuth_after_failed_renewal
    {NetState} (srv : NetState -> Request -> NetState * FetchResult)
    (env : Env) (url url' : string) (options options' : FetchWithAuthOptions)
    (w : @World NetState) (n1 n2 n3 : NetState) (r1 r3 : Response)
    (res2 : FetchResult) :
  let req1 := original_request url (fetchOptions options) (authHeaders (jar w)) in
  let reqR := refresh_request env (token "refresh_token" (jar w)) in
  let w1 := world_after (fetchWithAuth srv env url options w) in
  let req' := original_request url' (fetchOptions options')
                {["Content-Type" := "application/json"]} in
  srv (net w) req1 = (n1, Delivered r1) ->
  status r1 = 401 ->
  refresh_enabled options = true ->
  truthy (token "refresh_token" (jar w)) = true ->
  srv n1 reqR = (n2, res2) ->
  renewal_failed res2 ->
  srv n2 req' = (n3, Delivered r3) ->
  status r3 = 401 ->
  refresh_enabled options' = true ->
  fetchWithAuth srv env url' options' w1 =
    (Thrown no_refresh_credential,
     mkWorld (cleared (jar w)) n3 (wire w ++ [req1; reqR; req']) (console w)).
Proof.
  intros req1 reqR w1 req' H1 Hs He Ht H2 Hfail H3 Hs3 He3. unfold w1.
  rewrite (path_renewal_failed srv env url options w n1 n2 r1 res2)
    by assumption.
  cbn [world_after snd].
  rewrite (path_no_refresh_token srv env url' options' _ n3 r3);
    cbn [jar net wire console]; rewrite ?authHeaders_cleared;
    try assumption.
  - now rewrite <- app_assoc.
  - unfold token. now rewrite cleared_refresh.
Qed.

Lemma fetchWithAuth_after_failed_renewal_witness :
  let script := [Delivered resp_401; Delivered resp_401; Delivered resp_401;
                 Delivered resp_renewed] in
  let w1 := world_after (fetchWithAuth scripted dev_env stats_url get_options
                           (world_of jar_AAA_BBB script)) in
  let out := fetchWithAuth scripted dev_env stats_url get_options w1 in
  result_of out = Thrown no_refresh_credential /\
  net (world_after out) = [Delivered resp_renewed].
Proof.
  cbv zeta.
  assert (Hfail : renewal_failed (Delivered resp_401)) by reflexivity.
  rewrite (fetchWithAuth_after_failed_renewal scripted dev_env stats_url
             stats_url get_options get_options
             (world_of jar_AAA_BBB
                [Delivered resp_401; Delivered resp_401; Delivered resp_401;
                 Delivered resp_renewed])
             [Delivered resp_401; Delivered resp_401; Delivered resp_renewed]
             [Delivered resp_401; Delivered resp_renewed]
             [Delivered resp_renewed]
             resp_401 resp_401 (Delivered resp_401));
    [split | ..]; first [exact Hfail | reflexivity].
Defined.

(** ** Further properties of [logout] *)

(** X12.  [logout] changes only the two credential cookies, and a second
    [logout] on the world it left is a no-op: no request is issued, nothing
    is logged, the store stays as it is.  After [logout], [requireAuth]
    throws ["No authentication token found"]. *)
Theorem logout_then_logout_is_a_no_op
    {NetState} (srv : NetState -> Request -> NetState * FetchResult)
    (env : Env) (w : @World NetState) :
  let w1 := world_after (logout srv env w) in
  logout srv env w1 = (Returned tt, w1) /\
  requireAuth w1 = (Thrown (NewError "No authentication token found"), w1) /\
  (forall k, k <> "access_token" -> k <> "refresh_token" ->
             jar w1 !! k = jar w !! k).
Proof.
  intros w1.
  assert (Hjar : jar w1 = cleared (jar w)).
  { unfold w1. now rewrite logout_run. }
  assert (Hr : token "refresh_token" (jar w1) = Some "").
  { unfold token. now rewrite Hjar, cleared_refresh. }
  assert (Ha : token "access_token" (jar w1) = Some "").
  { unfold token. now rewrite Hjar, cleared_access. }
  split; [|split].
  - rewrite logout_run. rewrite Hr. cbn [truthy].
    rewrite !app_nil_r, Hjar, cleared_idempotent, <- Hjar.
    now destruct w1.
  - rewrite requireAuth_run, Ha. reflexivity.
  - intros k Hka Hkr. rewrite Hjar. now apply cleared_other.
Qed.

(** ** The server actions *)

(** X13.  [server/get-users-stats-action.ts]: without an access credential
    the action throws ["No authentication token found"] before any request
    is made; a refresh credential in the store does not help, since no
    renewal is attempted. *)
Theorem guarded_getUsersStats_fails_fast
    {NetState J} (srv : NetState -> Request -> NetState * FetchResult)
    (env : Env) (B : Body J) (w : @World NetState) :
  truthy (token "access_token" (jar w)) = false ->
  Guarded.getUsersStats srv env B w =
    (Thrown (NewError "No authentication token found"), w).
Proof.
  intros Ht. unfold Guarded.getUsersStats.
  eapply bind_thrown. rewrite requireAuth_run, Ht. reflexivity.
Qed.

Lemma guarded_getUsersStats_fails_fast_witness :
  truthy (token "refresh_token" jar_BBB) = true /\
  Guarded.getUsersStats scripted dev_env text_body
    (world_of jar_BBB [Delivered resp_stats])
  = (Thrown unauthenticated, world_of jar_BBB [Delivered resp_stats]).
Proof.
  split; [reflexivity|].
  apply (guarded_getUsersStats_fails_fast scripted dev_env text_body
           (world_of jar_BBB [Delivered resp_stats])).
  reflexivity.
Defined.

(** X14.  [server/get-users-stats-action.ts]: with an access credential the
    action issues exactly one request, a GET of the stats endpoint with the
    headers of [getAuthHeaders].  A response that is not ok (a 401
    included) makes it throw the error built from the body; it never calls
    the refresh endpoint and never changes the store. *)
Theorem guarded_getUsersStats_single_request
    {NetState J} (srv : NetState -> Request -> NetState * FetchResult)
    (env : Env) (B : Body J) (w : @World NetState)
    (n1 : NetState) (r1 : Response) :
  let req := Guarded.stats_request env (authHeaders (jar w)) in
  truthy (token "access_token" (jar w)) = true ->
  srv (net w) req = (n1, Delivered r1) ->
  Guarded.getUsersStats srv env B w =
    (if ok r1 then json B r1
     else Thrown (error_from B
                    match json B r1 with
                    | Returned d => d
                    | Thrown _ => empty_object B
                    end
                    ("Failed to fetch stats: " +:+ statusText r1)),
     mkWorld (jar w) n1 (wire w ++ [req]) (console w)).
Proof.
  intros req Ht H1. unfold Guarded.getUsersStats.
  erewrite bind_returned by (rewrite requireAuth_run, Ht; reflexivity).
  erewrite bind_returned by apply getAuthHeaders_run.
  erewrite bind_returned by (apply fetch_delivered; exact H1).
  destruct (ok r1); reflexivity.
Qed.

Lemma guarded_getUsersStats_single_request_witness :
  let out := Guarded.getUsersStats scripted dev_env text_body
               (world_of jar_AAA_BBB [Delivered resp_401; Delivered resp_renewed]) in
  result_of out = Thrown (NewError "Failed to fetch stats: Unauthorized") /\
  net (world_after out) = [Delivered resp_renewed] /\
  jar (world_after out) = jar_AAA_BBB.
Proof.
  cbv zeta.
  rewrite (guarded_getUsersStats_single_request scripted dev_env text_body
             (world_of jar_AAA_BBB [Delivered resp_401; Delivered resp_renewed])
             [Delivered resp_renewed] resp_401); [|reflexivity..].
  repeat split; reflexivity.
Defined.

(** X15.  The action built on [fetchWithAuth] hides an expired access
    credential: when the first answer is 401, the renewal succeeds and the
    retry is answered with an ok response, [getUsersStats] returns the
    decoded body of the retry, after exactly three requests, and the store
    holds the renewed credentials. *)
Theorem getUsersStats_renews_transparently
    {NetState J} (srv : NetState -> Request -> NetState * FetchResult)
    (env : Env) (B : Body J) (w : @World NetState)
    (n1 n2 n3 : NetState) (r1 r2 r3 : Response) :
  let fo := fetchOptions stats_options in
  let req1 := original_request (stats_endpoint env) fo (authHeaders (jar w)) in
  let reqR := refresh_request env (token "refresh_token" (jar w)) in
  let renewed := ingest env (setCookie r2) (jar w) in
  let retry := original_request (stats_endpoint env) fo (authHeaders renewed) in
  srv (net w) req1 = (n1, Delivered r1) ->
  status r1 = 401 ->
  truthy (token "refresh_token" (jar w)) = true ->
  srv n1 reqR = (n2, Delivered r2) ->
  ok r2 = true ->
  srv n2 retry = (n3, Delivered r3) ->
  ok r3 = true ->
  getUsersStats srv env B w =
    (json B r3,
     mkWorld renewed n3 (wire w ++ [req1; reqR; retry]) (console w)).
Proof.
  intros fo req1 reqR renewed retry H1 Hs Ht H2 Hok H3 Hok3.
  rewrite getUsersStats_run.
  rewrite (path_retry_delivered srv env (stats_endpoint env) stats_options
             w n1 r1 n2 r2 n3 r3) by (assumption || reflexivity).
  now rewrite Hok3.
Qed.

Lemma getUsersStats_renews_transparently_witness :
  let out := getUsersStats scripted dev_env text_body
               (world_of jar_AAA_BBB
                  [Delivered resp_401; Delivered resp_renewed;
                   Delivered resp_stats]) in
  result_of out = Returned "{}" /\
  token "access_token" (jar (world_after out)) = Some "CCC" /\
  token "refresh_token" (jar (world_after out)) = Some "DDD".
Proof.
  cbv zeta.
  rewrite (getUsersStats_renews_transparently scripted dev_env text_body
             (world_of jar_AAA_BBB
                [Delivered resp_401; Delivered resp_renewed;
                 Delivered resp_stats])
             [Delivered resp_renewed; Delivered resp_stats]
             [Delivered resp_stats] []
             resp_401 resp_renewed resp_stats); [|reflexivity..].
  repeat split; reflexivity.
Defined.

(** X16.  [getUsersStats] does not wrap a failed renewal: when the renewal
    round trip fails, the action throws what [fetchWithAuth] throws (the
    session-expired error for a non-success status, the fault otherwise),
    not a ["Failed to fetch stats"] error, and both credential cookies are
    left as the store's deletion entry (empty value, expired at the
    epoch). *)
Theorem getUsersStats_surfaces_failed_renewal
    {NetState J} (srv : NetState -> Request -> NetState * FetchResult)
    (env : Env) (B : Body J) (w : @World NetState)
    (n1 n2 : NetState) (r1 : Response) (res2 : FetchResult) :
  let req1 := original_request (stats_endpoint env) (fetchOptions stats_options)
                (authHeaders (jar w)) in
  let reqR := refresh_request env (token "refresh_token" (jar w)) in
  srv (net w) req1 = (n1, Delivered r1) ->
  status r1 = 401 ->
  truthy (token "refresh_token" (jar w)) = true ->
  srv n1 reqR = (n2, res2) ->
  renewal_failed res2 ->
  getUsersStats srv env B w =
    (Thrown match res2 with
            | Delivered _ => NewError "Session expired. Please login again."
            | Faulted msg => FetchFault msg
            end,
     mkWorld
       (<["refresh_token" := {| cookie_value := ""; cookie_options := None;
                                cookie_expires := Some 0 |}]>
          (<["access_token" := {| cookie_value := ""; cookie_options := None;
                                  cookie_expires := Some 0 |}]> (jar w)))
       n2 (wire w ++ [req1; reqR]) (console w)).
Proof.
  intros req1 reqR H1 Hs Ht H2 Hfail.
  rewrite getUsersStats_run.
  now rewrite (path_renewal_failed srv env (stats_endpoint env) stats_options
                 w n1 n2 r1 res2) by (assumption || reflexivity).
Qed.

Lemma getUsersStats_surfaces_failed_renewal_witness :
  getUsersStats scripted dev_env text_body
    (world_of jar_AAA_BBB [Delivered resp_401; Delivered resp_500])
  = (Thrown session_expired,
     mkWorld
       (<["refresh_token" := {| cookie_value := ""; cookie_options := None;
                                cookie_expires := Some 0 |}]>
          (<["access_token" := {| cookie_value := ""; cookie_options := None;
                                  cookie_expires := Some 0 |}]> jar_AAA_BBB))
       []
       [original_request (stats_endpoint dev_env) (fetchOptions stats_options)
          (authHeaders jar_AAA_BBB);
        refresh_request dev_env (Some "BBB")] []).
Proof.
  assert (Hfail : renewal_failed (Delivered resp_500)) by reflexivity.
  apply (getUsersStats_surfaces_failed_renewal scripted dev_env text_body
           (world_of jar_AAA_BBB [Delivered resp_401; Delivered resp_500])
           [Delivered resp_500] [] resp_401 (Delivered resp_500));
    first [exact Hfail | reflexivity].
Defined.

(** X17.  [login]: on an ok response the credentials it assigns are stored
    before the body is decoded.  The action sends one POST to the login
    endpoint, without any [Cookie] header; afterwards the store holds the
    access and refresh values of the response, and the outcome is whatever
    decoding the body yields (if decoding rejects, [login] throws with the
    credentials already stored). *)
Theorem login_stores_the_issued_pair
    {NetState J} (srv : NetState -> Request -> NetState * FetchResult)
    (env : Env) (B : Body J) (email password : string)
    (w : @World NetState) (n1 : NetState) (r : Response) (a rf : string) :
  let req := login_request env B email password in
  let out := login srv env B email password w in
  srv (net w) req = (n1, Delivered r) ->
  ok r = true ->
  last_match accessTokenMatch (setCookie r) = Some a ->
  last_match refreshTokenMatch (setCookie r) = Some rf ->
  out = (json B r,
         mkWorld (ingest env (setCookie r) (jar w)) n1 (wire w ++ [req])
           (console w)) /\
  token "access_token" (jar (world_after out)) = Some a /\
  token "refresh_token" (jar (world_after out)) = Some rf /\
  req_headers req !! "Cookie" = None.
Proof.
  intros req out H1 Hok Ha Hr.
  assert (Hout : out = (json B r,
            mkWorld (ingest env (setCookie r) (jar w)) n1 (wire w ++ [req])
              (console w))).
  { unfold out, login.
    erewrite bind_returned by (apply fetch_delivered; exact H1).
    rewrite Hok. cbn [negb]. cbv zeta.
    erewrite bind_returned by apply guarded_ingest_run.
    reflexivity. }
  split; [exact Hout|]. rewrite Hout.
  cbn [world_after snd jar]. unfold token.
  rewrite ingest_access, ingest_refresh, Ha, Hr.
  repeat split.
Qed.

Lemma login_stores_the_issued_pair_witness :
  let out := login scripted dev_env text_body "ada@example.org" "secret"
               (world_of ∅ [Delivered resp_login]) in
  result_of out = Returned "{user}" /\
  token "access_token" (jar (world_after out)) = Some "AAA" /\
  token "refresh_token" (jar (world_after out)) = Some "BBB".
Proof.
  cbv zeta.
  destruct (login_stores_the_issued_pair scripted dev_env text_body
              "ada@example.org" "secret" (world_of ∅ [Delivered resp_login])
              [] resp_login "AAA" "BBB") as (Hout & Ha & Hr & _);
    [reflexivity..|].
  rewrite Hout in *. auto.
Defined.

(** X18.  [login]: when the round trip fails, nothing is stored.  A
    response that is not ok makes [login] throw the error built from its
    body, even if that response carries set-cookie directives; a fault is
    thrown as it is.  In both cases one request was issued and the store is
    the one the call started with. *)
Theorem login_failure_stores_nothing
    {NetState J} (srv : NetState -> Request -> NetState * FetchResult)
    (env : Env) (B : Body J) (email password : string)
    (w : @World NetState) (n1 : NetState) (res : FetchResult) :
  let req := login_request env B email password in
  srv (net w) req = (n1, res) ->
  match res with Delivered r => ok r = false | Faulted _ => True end ->
  login srv env B email password w =
    (Thrown match res with
            | Delivered r =>
                error_from B
                  match json B r with
                  | Returned d => d
                  | Thrown _ => empty_object B
                  end
                  ("Login failed: " +:+ statusText r)
            | Faulted msg => FetchFault msg
            end,
     mkWorld (jar w) n1 (wire w ++ [req]) (console w)).
Proof.
  intros req H1 Hfail. unfold login. destruct res as [r|msg].
  - erewrite bind_returned by (apply fetch_delivered; exact H1).
    rewrite Hfail. reflexivity.
  - eapply bind_thrown. apply fetch_faulted. exact H1.
Qed.

Lemma login_failure_stores_nothing_witness :
  let rejected := {| status := 401; statusText := "Unauthorized";
                     setCookie := [access_CCC; refresh_DDD];
                     resp_body := "" |} in
  let out := login scripted dev_env text_body "ada@example.org" "wrong"
               (world_of jar_AAA [Delivered rejected]) in
  result_of out = Thrown (NewError "Login failed: Unauthorized") /\
  jar (world_after out) = jar_AAA.
Proof.
  cbv zeta.
  rewrite (login_failure_stores_nothing scripted dev_env text_body
             "ada@example.org" "wrong"
             (world_of jar_AAA
                [Delivered {| status := 401; statusText := "Unauthorized";
                              setCookie := [access_CCC; refresh_DDD];
                              resp_body := "" |}])
             [] (Delivered {| status := 401; statusText := "Unauthorized";
                              setCookie := [access_CCC; refresh_DDD];
                              resp_body := "" |}));
    [split; reflexivity | reflexivity | reflexivity].
Defined.

(** X19.  [login] followed by a protected call: after a successful login
    that issued the access value [a] and the refresh value [rf], the first
    request of any [fetchWithAuth] call is built from headers whose
    [Cookie] entry is [access_token=a; refresh_token=rf]. *)
Theorem login_then_fetchWithAuth_sends_the_pair
    {NetState J} (srv : NetState -> Request -> NetState * FetchResult)
    (env : Env) (B : Body J) (email password : string)
    (w : @World NetState) (n1 : NetState) (r : Response) (a rf : string)
    (url : string) (options : FetchWithAuthOptions) :
  let w1 := world_after (login srv env B email password w) in
  srv (net w) (login_request env B email password) = (n1, Delivered r) ->
  ok r = true ->
  last_match accessTokenMatch (setCookie r) = Some a ->
  last_match refreshTokenMatch (setCookie r) = Some rf ->
  exists hdrs extra,
    wire (world_after (fetchWithAuth srv env url options w1)) =
      (wire w1 ++ original_request url (fetchOptions options) hdrs :: extra)%list /\
    hdrs !! "Content-Type" = Some "application/json" /\
    hdrs !! "Cookie" =
      Some ("access_token=" +:+ a +:+ "; refresh_token=" +:+ rf).
Proof.
  intros w1 H1 Hok Ha Hr.
  assert (Hjar : jar w1 = ingest env (setCookie r) (jar w)).
  { unfold w1, login.
    erewrite bind_returned by (apply fetch_delivered; exact H1).
    rewrite Hok. cbn [negb]. cbv zeta.
    erewrite bind_returned by apply guarded_ingest_run.
    reflexivity. }
  destruct (fetchWithAuth_first_request srv env url options w1) as [extra He].
  exists (authHeaders (jar w1)), extra.
  split; [exact He|]. split; [apply authHeaders_content_type|].
  rewrite authHeaders_cookie, Hjar, ingest_token_access, ingest_token_refresh,
    Ha, Hr.
  unfold cookie_entry.
  rewrite (last_match_truthy _ _ _ Ha), (last_match_truthy _ _ _ Hr).
  reflexivity.
Qed.

Lemma login_then_fetchWithAuth_sends_the_pair_witness :
  exists hdrs extra,
    wire (world_after
            (fetchWithAuth scripted dev_env stats_url get_options
               (world_after
                  (login scripted dev_env text_body "ada@example.org" "secret"
                     (world_of ∅ [Delivered resp_login; Delivered resp_stats])))))
    = (wire (world_after
               (login scripted dev_env text_body "ada@example.org" "secret"
                  (world_of ∅ [Delivered resp_login; Delivered resp_stats])))
       ++ original_request stats_url (fetchOptions get_options) hdrs :: extra)%list /\
    hdrs !! "Content-Type" = Some "application/json" /\
    hdrs !! "Cookie" = Some "access_token=AAA; refresh_token=BBB".
Proof.
  apply (login_then_fetchWithAuth_sends_the_pair scripted dev_env text_body
           "ada@example.org" "secret"
           (world_of ∅ [Delivered resp_login; Delivered resp_stats])
           [Delivered resp_stats] resp_login "AAA" "BBB" stats_url get_options);
    reflexivity.
Defined.
